(* ===== verification/_CoqProject ===== *)
-Q . S2P
Prelude.v
FileTree.v
FolderSize.v
FsOps.v
Policy.v
Sweep.v
SystemFolder.v
BrowserCache.v
RecycleBin.v
OldLogs.v
LogsWalk.v
Main.v
