(* ===== verification/Prelude.v ===== *)
(** * A verification development of CleanupScript (src/cleanup.py)

    CleanupScript is a Windows disk-cleanup script.  [main] runs four
    cleaners in a fixed order: the Yandex browser cache
    ([clean_yandex_browser_cache]), the folders TEMP, C:\Windows\Temp and
    C:\Windows\SoftwareDistribution\Download ([clean_system_folder]),
    C:\Windows\Logs with a 7-day limit ([clean_old_logs]), and the
    recycle bin ([clean_recycle_bin]).  Each cleaner measures sizes with
    [get_folder_size], deletes with [Path.unlink] and
    [shutil.rmtree(ignore_errors=True)], catches per-entry exceptions and
    returns the bytes it counted.  [main] wraps each call in a [try],
    collects [str(e)] of what escapes, sums the totals, and sends a
    summary to Telegram ([send_telegram_message]) unless the run is a dry
    run or the credentials are missing.

    * Files, in dependency order

    - [Prelude] (this file): the state-and-exception monad [M] the code is
      translated into (Python's exceptions are [Raise], the writes made
      before a [raise] are kept), [bind] with the notation [let* x := c in
      k], [try_except] for [try]/[except], [foldM] for [for] loops; the
      invariant combinator [preserves] and [no_raise] with their lemmas,
      the hint database [cleanup] and the tactics [solve_preserves],
      [solve_no_raise].
    - [FileTree]: the filesystem as a tree of [node]s (file with size,
      time and "held open" flag; dangling link; directory), lookup and
      update by path, well-formedness (unique names, sizes >= 0), the
      algebra of updates at disjoint paths, and heights.
    - [FolderSize]: [get_folder_size] (lines 33-43) as [walk], following
      [os.walk] top-down and stopping the whole walk at the first failing
      [getsize].
    - [FsOps]: the world (filesystem, clock, trace of log records and
      Telegram messages), the exceptions, and the library calls:
      [os.path.exists], [Path.stat], [is_file], [is_dir], [unlink],
      [rmtree] ([rm_node]), [glob("*")]; the invariants "filesystem
      unchanged" ([fs_is]) and "no Telegram message" ([tg_is]).
    - [Policy]: the design's classifier of entries (keep / delete file /
      delete subtree, with its precedence of rules), an abstract
      specification the cleaners are compared with.
    - [Sweep]: once for all one-level loops, the theorem [sweep_children]
      giving the result of [for item in Path(p).glob("*")] from a
      specification of one iteration.
    - [SystemFolder] (lines 81-110), [BrowserCache] (lines 45-79),
      [RecycleBin] (lines 147-166), [OldLogs] (lines 112-145): one file per
      cleaner; [LogsWalk]: the depth bound of the [rglob] walk.
    - [Main]: [main] (lines 168-222) over the interface [Cleaners] (a
      class whose laws [CleanersLaws] the cleaner files discharge), the
      message with [:.2f] rounding, the notification decision, and
      [send_telegram_message] (lines 24-31).

    * What the theorems show

    - Dry runs: no cleaner and not [main] changes the filesystem in a dry
      run, and [main] then sends nothing ([clean_system_folder_dry_run],
      [clean_old_logs_dry_run], [clean_recycle_bin_dry_run],
      [main_dry_run]).
    - Functional behaviour of real runs: the total returned, the entries
      left, the records logged and the frame (nothing outside the folder
      changes) for [clean_system_folder], [clean_yandex_browser_cache]
      and a flat logs folder; the recycle bin's measured difference;
      [main]'s message is the summary of what the six cleaner calls
      returned and raised ([main_notifies]), and its four [try] blocks
      equal the reference [run_all]/[summarize] ([run_targets_summarizes]);
      the printed hundredths of a megabyte are the nearest integer, ties
      to even ([mb_cents_spec]); the notification decision
      ([notify_decision_spec]).
    - Safety: the browser cookies are never touched
      ([browser_cache_keeps_excluded]); a logs folder whose entries are
      all newer than the cutoff, at every depth, is left as it is
      ([clean_old_logs_keeps_fresh]).
    - Refinement: one iteration of each cleaner's loop body
      ([yandex_item], [system_item], [logs_item]) leaves the filesystem as
      carrying out [Policy.classify]'s decision with that target's rules
      ([yandex_item_refines], [system_item_refines], [logs_item_refines]).
    - Equivalence and bounds: [get_folder_size] is the sum of file sizes
      when no link cuts it short, and lies between 0 and that sum;
      the totals of [clean_system_folder] are bounded likewise.
    - Errors: [main] never raises ([main_never_raises]).
    - Termination: the walk of [clean_old_logs], bounded by the height of
      the logs folder, does what it does with any larger bound
      ([rglob_loop_fuel_adequate]).
    - Where the code departs from its design, stated for every input of
      the shape concerned: [get_folder_size] returns only the bytes listed
      before the first dangling link ([get_folder_size_stops_at_link]);
      [clean_system_folder] returns the bytes freed plus what [rmtree]
      could not remove ([clean_system_folder_overreports]); the recycle
      bin returns minus the bytes of its open files when a dangling link
      comes first ([clean_recycle_bin_negative]); every profile file but
      the cookies is deleted and skipped directories are logged as deleted
      ([browser_cache_deletes_profile_files]); a log exactly at the cutoff
      is deleted ([clean_old_logs_deletes_at_cutoff]); an old directory
      goes with everything in it, fresh logs included
      ([logs_item_deletes_old_dir]).

    * Modelling choices

    - Time: one clock per run; [datetime.now()] and the time stamped on a
      directory that loses an entry are the same instant.  Sizes and times
      are [Z].  The printed total is exact for totals below 2^53 bytes,
      where [b / 1024 / 1024] is exact in binary floating point.
    - Fuel: [visit] is given the height of the logs folder; LogsWalk.v
      proves it enough, so the bound is not an approximation.
    - Parameters of the environment: the --dry-run flag and the variables
      read by [os.getenv] form [Main.config]; whether the Bot API accepts
      a message is its field [telegram_up]; [str(e)] is the parameter
      [exn_str].

    * Not modelled

    - [load_dotenv], [logging.basicConfig] and [argparse] (process setup:
      their results are the configuration); the text of the log records
      (each is a structured [message] naming its Russian text's content);
      the Telegram library itself (its call is the event [Telegram]);
      src/tests.py, whose three scenarios are restated as concrete
      examples ([test_yandex_browser_cache_scenario],
      [test_system_folder_scenario], [clean_old_logs_flat_witness]).
*)

From Stdlib Require Export ZArith Lia.
From stdpp Require Export base list strings decidable.

Declare Scope cleanup_scope.
Delimit Scope cleanup_scope with cleanup.
Open Scope Z_scope.

Create HintDb cleanup.
Create Rewrite HintDb cleanup_rw.

(** ** Outcomes of a Python statement: a value, or a raised exception. *)

Inductive outcome (E A : Type) : Type :=
| Ok (a : A)
| Raise (e : E).
Arguments Ok {E A} a.
Arguments Raise {E A} e.

(** ** The state-and-exception monad.

    A computation reads and writes a world [W] and either returns a value
    or raises an exception of type [E]; the writes made before a [raise]
    are kept, as in Python. *)

Definition M (W E A : Type) : Type := W -> outcome E A * W.

#[export] Instance M_ret {W E} : MRet (M W E) := fun A a w => (Ok a, w).
#[export] Instance M_bind {W E} : MBind (M W E) := fun A B k c w =>
  match c w with
  | (Ok a, w') => k a w'
  | (Raise e, w') => (Raise e, w')
  end.

(** Bind with the computation first, so that the bound variable's type
    is known when the continuation is elaborated. *)
Definition bind {W E A B} (c : M W E A) (k : A -> M W E B) : M W E B := c ≫= k.

Notation "'let*' x ':=' c 'in' k" := (bind c (fun x => k))
  (at level 10, x name, c at level 100, k at level 200,
   format "'[' 'let*'  x  ':='  c  'in' ']' '//' k") : cleanup_scope.
Open Scope cleanup_scope.

Definition raise {W E A} (e : E) : M W E A := fun w => (Raise e, w).
Definition gets {W E A} (f : W -> A) : M W E A := fun w => (Ok (f w), w).
Definition modify {W E} (f : W -> W) : M W E unit := fun w => (Ok tt, f w).

(** [try: c except Exception as e: h e]. *)
Definition try_except {W E A} (c : M W E A) (h : E -> M W E A) : M W E A :=
  fun w => match c w with
           | (Raise e, w') => h e w'
           | r => r
           end.

(** A [for x in l:] loop threading an accumulator. *)
Fixpoint foldM {W E A B} (f : B -> A -> M W E A) (l : list B) (a : A) : M W E A :=
  match l with
  | [] => mret a
  | x :: l' => f x a ≫= foldM f l'
  end.

(** Run a computation, keeping only the final world or the result. *)
Definition exec {W E A} (c : M W E A) (w : W) : W := snd (c w).
Definition eval {W E A} (c : M W E A) (w : W) : outcome E A := fst (c w).

(** ** Monad laws and unfolding lemmas *)

Section Laws.
Context {W E : Type}.

Lemma bind_ret_l {A B} (a : A) (k : A -> M W E B) :
    (mret a ≫= k) = k a.
  Proof. reflexivity. Qed.

Lemma bind_ret_r {A} (c : M W E A) w : (c ≫= mret) w = c w.
  Proof. cbv. destruct (c w) as [[] ?]; reflexivity. Qed.

Lemma bind_assoc {A B C} (c : M W E A) (k1 : A -> M W E B) (k2 : B -> M W E C) w :
    ((c ≫= k1) ≫= k2) w = (c ≫= fun a => k1 a ≫= k2) w.
  Proof. cbv. destruct (c w) as [[] ?]; reflexivity. Qed.

Lemma run_bind {A B} (c : M W E A) (k : A -> M W E B) w :
    (c ≫= k) w = match c w with
                 | (Ok a, w') => k a w'
                 | (Raise e, w') => (Raise e, w')
                 end.
  Proof. reflexivity. Qed.

Lemma run_bind' {A B} (c : M W E A) (k : A -> M W E B) w :
    bind c k w = match c w with
                 | (Ok a, w') => k a w'
                 | (Raise e, w') => (Raise e, w')
                 end.
  Proof. reflexivity. Qed.

Lemma run_try {A} (c : M W E A) h w :
    try_except c h w = match c w with
                       | (Raise e, w') => h e w'
                       | r => r
                       end.
  Proof. reflexivity. Qed.
End Laws.

(** ** Invariants of the world

    [preserves P c]: from a world satisfying [P], [c] ends in a world
    satisfying [P], whether it returns or raises.  The lemmas below let
    an invariant be checked statement by statement. *)

Section Preserves.
Context {W E : Type} (P : W -> Prop).

Definition preserves {A} (c : M W E A) : Prop :=
    forall w, P w -> P (exec c w).

Lemma preserves_ret {A} (a : A) : preserves (mret a).
  Proof. intros w Hw. exact Hw. Qed.

Lemma preserves_raise {A} (e : E) : preserves (@raise W E A e).
  Proof. intros w Hw. exact Hw. Qed.

Lemma preserves_gets {A} (f : W -> A) : preserves (gets f).
  Proof. intros w Hw. exact Hw. Qed.

Lemma preserves_bind {A B} (c : M W E A) (k : A -> M W E B) :
    preserves c -> (forall a, preserves (k a)) -> preserves (c ≫= k).
  Proof.
    intros Hc Hk w Hw. unfold exec. rewrite run_bind.
    specialize (Hc w Hw). unfold exec in Hc.
    destruct (c w) as [[a|e] w']; [apply Hk|]; exact Hc.
  Qed.

Lemma preserves_bind' {A B} (c : M W E A) (k : A -> M W E B) :
    preserves c -> (forall a, preserves (k a)) -> preserves (bind c k).
  Proof. apply preserves_bind. Qed.

Lemma preserves_try {A} (c : M W E A) (h : E -> M W E A) :
    preserves c -> (forall e, preserves (h e)) -> preserves (try_except c h).
  Proof.
    intros Hc Hh w Hw. unfold exec. rewrite run_try.
    specialize (Hc w Hw). unfold exec in Hc.
    destruct (c w) as [[a|e] w']; [|apply Hh]; exact Hc.
  Qed.

Lemma preserves_foldM {A B} (f : B -> A -> M W E A) (l : list B) (a : A) :
    (forall x b, preserves (f x b)) -> preserves (foldM f l a).
  Proof.
    intros Hf. revert a. induction l as [|x l IH]; intros a; simpl.
    - apply preserves_ret.
    - apply preserves_bind; auto.
  Qed.
(** The same, when the loop body is known to keep [P] only on the
    elements of the list. *)
Lemma preserves_foldM_in {A B} (f : B -> A -> M W E A) (l : list B) (a : A) :
    (forall x b, x ∈ l -> preserves (f x b)) -> preserves (foldM f l a).
  Proof.
    intros Hf. revert a. induction l as [|x l IH]; intros a; simpl.
    - apply preserves_ret.
    - apply preserves_bind; [apply Hf; left|intros b; apply IH].
      intros y c Hy. apply Hf. by right.
  Qed.
End Preserves.

#[export] Hint Resolve preserves_ret preserves_raise preserves_gets
  preserves_bind preserves_bind' preserves_try preserves_foldM : cleanup.

(** Decompose a [preserves] goal statement by statement. *)
Ltac solve_preserves :=
  repeat first
    [ progress intros
    | apply preserves_bind
    | apply preserves_bind'
    | apply preserves_try
    | apply preserves_foldM
    | apply preserves_ret
    | apply preserves_raise
    | apply preserves_gets
    | case_match ];
  eauto with cleanup.

(** ** Computations that never raise

    [no_raise c]: from every world, [c] returns a value. *)

Section NoRaise.
Context {W E : Type}.

Definition no_raise {A} (c : M W E A) : Prop := forall w, exists a, fst (c w) = Ok a.

Lemma no_raise_ret {A} (a : A) : no_raise (mret a : M W E A).
  Proof. intros w. by exists a. Qed.

Lemma no_raise_modify (f : W -> W) : no_raise (@modify W E f).
  Proof. intros w. by exists tt. Qed.

Lemma no_raise_bind {A B} (c : M W E A) (k : A -> M W E B) :
    no_raise c -> (forall a, no_raise (k a)) -> no_raise (c ≫= k).
  Proof.
    intros Hc Hk w. rewrite run_bind. destruct (Hc w) as [a Ha].
    destruct (c w) as [o w']. simpl in Ha. subst o. apply Hk.
  Qed.

Lemma no_raise_bind' {A B} (c : M W E A) (k : A -> M W E B) :
    no_raise c -> (forall a, no_raise (k a)) -> no_raise (bind c k).
  Proof. apply no_raise_bind. Qed.

(** A [try] whose handler never raises never raises. *)
Lemma no_raise_try {A} (c : M W E A) (h : E -> M W E A) :
    (forall e, no_raise (h e)) -> no_raise (try_except c h).
  Proof.
    intros Hh w. rewrite run_try.
    destruct (c w) as [[a|e] w']; [by exists a|apply Hh].
  Qed.

Lemma no_raise_foldM {A B} (f : B -> A -> M W E A) (l : list B) (a : A) :
    (forall x b, no_raise (f x b)) -> no_raise (foldM f l a).
  Proof.
    intros Hf. revert a. induction l as [|x l IH]; intros a; simpl.
    - apply no_raise_ret.
    - apply no_raise_bind; auto.
  Qed.
End NoRaise.

(** A computation that never raises and keeps [P] runs to a value in a
    world satisfying [P]. *)
Lemma run_no_raise {W E A} (P : W -> Prop) (c : M W E A) w :
  no_raise c -> preserves P c -> P w -> exists a w', c w = (Ok a, w') /\ P w'.
Proof.
  intros Hn Hp Hw. destruct (Hn w) as [a Ha]. specialize (Hp w Hw). unfold exec in Hp.
  destruct (c w) as [o w']. simpl in *. subst o. eauto.
Qed.

(** Decompose a [no_raise] goal statement by statement. *)
Ltac solve_no_raise :=
  repeat first
    [ progress intros
    | apply no_raise_bind
    | apply no_raise_bind'
    | apply no_raise_try
    | apply no_raise_foldM
    | apply no_raise_ret
    | apply no_raise_modify
    | case_match ].

(** Split boolean conjunctions in the hypotheses. *)
Ltac split_andb :=
  repeat match goal with
         | H : (_ && _)%bool = true |- _ => apply andb_true_iff in H as [? ?]
         end.
