(* ===== verification/FileTree.v ===== *)
(** * FileTree: the filesystem the cleaners walk and delete from.

    A directory tree is a [node]: a regular file (size in bytes,
    modification time, and whether another process holds it open so that
    deleting it fails), a dangling symbolic link (its target is gone, so
    [os.stat] and [os.path.getsize] on it raise), or a directory with its
    entries in listing order.  A path is the list of names from the root.
    Lookup follows a path from the root; [alter_at] rewrites or removes
    the node at a path, and stamps the parent directory's modification
    time with the current clock when it loses an entry, as NTFS and POSIX
    filesystems do.  The last section bounds heights: an update of the
    kind the cleaners make never raises the node at a path, which bounds
    the recursive walk of [clean_old_logs] (LogsWalk.v). *)

From S2P Require Import Prelude.

(** ** Nodes *)

Local Unset Elimination Schemes.
Inductive node : Type :=
| File (name : string) (size : Z) (mtime : Z) (locked : bool)
| Link (name : string) (mtime : Z)
| Dir (name : string) (mtime : Z) (children : list node).
Local Set Elimination Schemes.

(** Induction with a hypothesis for every entry of a directory. *)
Section node_ind.
Variable P : node -> Prop.
Hypothesis P_File : forall nm s t l, P (File nm s t l).
Hypothesis P_Link : forall nm t, P (Link nm t).
Hypothesis P_Dir : forall nm t cs, Forall P cs -> P (Dir nm t cs).

Fixpoint node_ind (n : node) : P n :=
    match n with
    | File nm s t l => P_File nm s t l
    | Link nm t => P_Link nm t
    | Dir nm t cs =>
        P_Dir nm t cs
          ((fix go (l : list node) : Forall P l :=
              match l with
              | [] => Forall_nil P
              | c :: r => Forall_cons P c r (node_ind c) (go r)
              end) cs)
    end.
End node_ind.

Definition node_eq_dec : forall x y : node, {x = y} + {x <> y}.
Proof.
  fix go 1. intros [a b c d|a b|a b cs] [a' b' c' d'|a' b'|a' b' cs'];
    try (right; discriminate).
  - destruct (decide (a = a')), (decide (b = b')), (decide (c = c')),
      (decide (d = d')); [left; congruence|right; congruence..].
  - destruct (decide (a = a')), (decide (b = b'));
      [left; congruence|right; congruence..].
  - destruct (decide (a = a')), (decide (b = b')), (@list_eq_dec _ go cs cs');
      [left; congruence|right; congruence..].
Defined.
#[export] Instance node_eq_decision : EqDecision node := node_eq_dec.

Definition node_name (n : node) : string :=
  match n with File nm _ _ _ | Link nm _ | Dir nm _ _ => nm end.

Definition node_mtime (n : node) : Z :=
  match n with File _ _ t _ | Link _ t | Dir _ t _ => t end.

(** [os.DirEntry.is_dir()] / [Path.is_dir()]: follows links, so a dangling
    link is not a directory. *)
Definition node_is_dir (n : node) : bool :=
  match n with Dir _ _ _ => true | _ => false end.

(** A dangling link. *)
Definition is_link (n : node) : bool :=
  match n with Link _ _ => true | _ => false end.

(** [Path.is_file()]: a dangling link is not a file either. *)
Definition node_is_file (n : node) : bool :=
  match n with File _ _ _ _ => true | _ => false end.

(** ** Sums over entries *)

Definition sumZ {A} (f : A -> Z) : list A -> Z :=
  fix go (l : list A) : Z :=
    match l with [] => 0 | x :: r => f x + go r end.

Lemma sumZ_app {A} (f : A -> Z) l1 l2 : sumZ f (l1 ++ l2) = sumZ f l1 + sumZ f l2.
Proof. induction l1; simpl; lia. Qed.

Lemma sumZ_nonneg {A} (f : A -> Z) l : Forall (fun x => 0 <= f x) l -> 0 <= sumZ f l.
Proof. induction 1; simpl; lia. Qed.

Lemma sumZ_ext {A} (f g : A -> Z) l :
  Forall (fun x => f x = g x) l -> sumZ f l = sumZ g l.
Proof. induction 1; simpl; lia. Qed.

Lemma sumZ_le {A} (f g : A -> Z) l :
  Forall (fun x => f x <= g x) l -> sumZ f l <= sumZ g l.
Proof. induction 1; simpl; lia. Qed.

#[export] Hint Rewrite @sumZ_app : cleanup_rw.

(** The bytes held by the regular files of a tree: what the disk would
    gain if the whole tree were deleted. *)
Fixpoint tree_size (n : node) : Z :=
  match n with
  | File _ s _ _ => s
  | Link _ _ => 0
  | Dir _ _ cs => sumZ tree_size cs
  end.

(** Height of a tree: the depth bound of any traversal. *)
Fixpoint height (n : node) : nat :=
  match n with
  | Dir _ _ cs => S (fold_right (fun c m => Nat.max (height c) m) 0%nat cs)
  | _ => 0%nat
  end.

(** ** Paths *)

Definition path := list string.

(** The first entry named [x]: on a well-formed tree, the only one. *)
Fixpoint child (x : string) (cs : list node) : option node :=
  match cs with
  | [] => None
  | c :: r => if decide (node_name c = x) then Some c else child x r
  end.

(** The node reached from [n] along [p]. *)
Fixpoint lookup_in (p : path) (n : node) : option node :=
  match p with
  | [] => Some n
  | x :: p' =>
      match n with
      | Dir _ _ cs => match child x cs with Some c => lookup_in p' c | None => None end
      | _ => None
      end
  end.

(** Rewrite (or remove, when [g] returns [None]) the first entry named [x]. *)
Fixpoint alter_child (x : string) (g : node -> option node) (cs : list node) : list node :=
  match cs with
  | [] => []
  | c :: r =>
      if decide (node_name c = x)
      then match g c with Some c' => c' :: r | None => r end
      else c :: alter_child x g r
  end.

(** Apply [f] to the node at [p] below [n]; [None] from [f] removes it.
    A directory that loses an entry gets modification time [clk]. *)
Fixpoint alter_node (clk : Z) (f : node -> option node) (p : path) (n : node) : option node :=
  match p with
  | [] => f n
  | x :: p' =>
      match n with
      | Dir nm t cs =>
          let cs' := alter_child x (alter_node clk f p') cs in
          Some (Dir nm (if Nat.eqb (length cs') (length cs) then t else clk) cs')
      | _ => Some n
      end
  end.

(** The root itself is never removed. *)
Definition alter_at (clk : Z) (f : node -> option node) (p : path) (root : node) : node :=
  match alter_node clk f p root with Some r => r | None => root end.

(** ** Well-formedness: names unique in each directory, sizes non-negative *)

Fixpoint wf_node (n : node) : bool :=
  match n with
  | File _ s _ _ => bool_decide (0 <= s)
  | Link _ _ => true
  | Dir _ _ cs =>
      bool_decide (NoDup (map node_name cs)) &&
      (fix go (l : list node) : bool :=
         match l with [] => true | c :: r => wf_node c && go r end) cs
  end.

Definition wf (n : node) : Prop := wf_node n = true.

Lemma wf_Dir nm t cs :
  wf (Dir nm t cs) <-> NoDup (map node_name cs) /\ Forall wf cs.
Proof.
  unfold wf; simpl. rewrite andb_true_iff, bool_decide_eq_true.
  apply and_iff_compat_l. induction cs as [|c cs IH]; simpl.
  - split; auto.
  - rewrite andb_true_iff, Forall_cons_iff, IH. reflexivity.
Qed.

Lemma wf_File nm s t l : wf (File nm s t l) <-> 0 <= s.
Proof. unfold wf; simpl. apply bool_decide_eq_true. Qed.

Lemma tree_size_nonneg n : wf n -> 0 <= tree_size n.
Proof.
  induction n as [nm s t l|nm t|nm t cs IH] using node_ind; simpl; intros Hwf.
  - by apply wf_File in Hwf.
  - lia.
  - apply wf_Dir in Hwf as [_ Hcs]. apply sumZ_nonneg.
    apply Forall_forall. intros c Hc.
    eapply Forall_forall in IH; [|exact Hc]. apply IH.
    eapply Forall_forall in Hcs; [|exact Hc]. exact Hcs.
Qed.

Lemma sumZ_nonneg_wf (f : node -> Z) cs :
  (forall c, wf c -> 0 <= f c) -> Forall wf cs -> 0 <= sumZ f cs.
Proof. intros Hf Hcs. apply sumZ_nonneg. by eapply Forall_impl; [exact Hf|]. Qed.

#[export] Hint Resolve tree_size_nonneg : cleanup.

Lemma child_In x cs c : child x cs = Some c -> In c cs /\ node_name c = x.
Proof.
  induction cs as [|c' cs IH]; simpl; [discriminate|].
  case_decide; [intros [= <-]; auto|]. intros Hc. apply IH in Hc as [? ?]. auto.
Qed.

Lemma wf_lookup_in p n m : wf n -> lookup_in p n = Some m -> wf m.
Proof.
  revert n; induction p as [|x p IH]; intros n Hwf H; simpl in H.
  - by injection H as <-.
  - destruct n as [| |nm t cs]; try discriminate.
    destruct (child x cs) as [c|] eqn:Hc; [|discriminate].
    apply child_In in Hc as [Hin _]. apply wf_Dir in Hwf as [_ Hcs].
    eapply IH; [|exact H]. by eapply Forall_forall in Hcs.
Qed.

(** ** Path algebra: lookups after an update *)

(** An update that never renames what it keeps. *)
Definition keeps_name (f : node -> option node) : Prop :=
  forall n n', f n = Some n' -> node_name n' = node_name n.

Lemma lookup_in_app p q n :
  lookup_in (p ++ q) n = lookup_in p n ≫= lookup_in q.
Proof.
  revert n; induction p as [|x p IH]; intros n; simpl; [done|].
  destruct n as [| |nm t cs]; try done. destruct (child x cs); done.
Qed.

Lemma alter_node_cons_Some clk f x p n :
  exists n', alter_node clk f (x :: p) n = Some n' /\ node_name n' = node_name n.
Proof. destruct n; simpl; eauto. Qed.

Lemma alter_node_keeps_name clk f p :
  p <> [] -> keeps_name (alter_node clk f p).
Proof.
  destruct p as [|x p]; [done|]. intros _ n n' H.
  destruct (alter_node_cons_Some clk f x p n) as (m & Hm & Hnm). congruence.
Qed.

Lemma child_alter_child_ne x y g cs :
  y <> x -> keeps_name g -> child y (alter_child x g cs) = child y cs.
Proof.
  intros Hne Hg. induction cs as [|c cs IH]; simpl; [done|].
  case_decide as Hcx.
  - destruct (g c) as [c'|] eqn:Hgc; simpl.
    + apply Hg in Hgc. rewrite decide_False by congruence.
      rewrite decide_False by congruence. done.
    + rewrite decide_False by congruence. done.
  - simpl. case_decide; [done|]. exact IH.
Qed.

Lemma child_alter_child_eq x g cs c c' :
  child x cs = Some c -> g c = Some c' -> node_name c' = x ->
  child x (alter_child x g cs) = Some c'.
Proof.
  induction cs as [|c0 cs IH]; simpl; [discriminate|].
  case_decide.
  - intros [= <-] -> Hn. simpl. by rewrite decide_True.
  - intros H1 H2 H3. simpl. rewrite decide_False by done. auto.
Qed.

(** Paths that part at some component: updating one leaves the other. *)
Definition disjoint (q r : path) : Prop :=
  exists pre y x q' r', y <> x /\ q = pre ++ y :: q' /\ r = pre ++ x :: r'.

Lemma lookup_alter_node_disjoint clk f pre y x q' r' n n' :
  y <> x -> keeps_name f ->
  alter_node clk f (pre ++ x :: r') n = Some n' ->
  lookup_in (pre ++ y :: q') n' = lookup_in (pre ++ y :: q') n.
Proof.
  intros Hne Hf. revert n n'. induction pre as [|z pre IH]; intros n n' Halt;
    simpl in *.
  - destruct n as [| |nm t cs]; injection Halt as <-; try done.
    rewrite child_alter_child_ne; [done|done|].
    destruct r'; [exact Hf|]. by apply alter_node_keeps_name.
  - destruct n as [| |nm t cs]; injection Halt as <-; try done.
    destruct (child z cs) as [c|] eqn:Hc.
    + destruct (alter_node_cons_Some clk f x r' c) as (c' & Hc' & Hnm).
      pose proof Hc' as Hc''. rewrite <- (app_nil_l (x :: r')) in Hc''.
      destruct pre as [|p0 pre].
      * erewrite child_alter_child_eq; [|exact Hc|exact Hc'|].
        -- apply (IH c c'). exact Hc'.
        -- apply child_In in Hc as [_ <-]. exact Hnm.
      * destruct (alter_node_cons_Some clk f p0 (pre ++ x :: r') c) as (c2 & Hc2 & Hnm2).
        erewrite child_alter_child_eq; [|exact Hc|exact Hc2|].
        -- apply (IH c c2). exact Hc2.
        -- apply child_In in Hc as [_ <-]. exact Hnm2.
    + remember (alter_node clk f (pre ++ x :: r')) as g.
      assert (child z (alter_child z g cs) = None) as ->; [|done].
      clear -Hc. induction cs as [|c cs IHc]; simpl in *; [done|].
      case_decide; [discriminate|]. simpl. rewrite decide_False by done. auto.
Qed.

Lemma lookup_alter_at_disjoint clk f q r root :
  disjoint q r -> keeps_name f ->
  lookup_in q (alter_at clk f r root) = lookup_in q root.
Proof.
  intros (pre & y & x & q' & r' & Hne & -> & ->) Hf. unfold alter_at.
  destruct (alter_node clk f (pre ++ x :: r') root) eqn:Halt; [|done].
  eapply lookup_alter_node_disjoint; eauto.
Qed.

Lemma alter_child_ext_first x g g' cs c :
  child x cs = Some c -> g c = g' c -> alter_child x g cs = alter_child x g' cs.
Proof.
  induction cs as [|c0 cs IH]; simpl; [discriminate|].
  case_decide; [intros [= <-] ->; done|]. intros Hc Hg. by rewrite IH.
Qed.

Lemma alter_node_ext_at clk f f' r n c :
  lookup_in r n = Some c -> f c = f' c -> alter_node clk f r n = alter_node clk f' r n.
Proof.
  revert n; induction r as [|y r IH]; intros n Hl Hf; simpl in *.
  - by injection Hl as ->.
  - destruct n as [| |nm t cs]; try done.
    destruct (child y cs) as [c0|] eqn:Hc; [|discriminate].
    erewrite alter_child_ext_first; [done|exact Hc|]. by apply IH.
Qed.

Lemma alter_at_ext_at clk f f' r root c :
  lookup_in r root = Some c -> f c = f' c -> alter_at clk f r root = alter_at clk f' r root.
Proof. intros Hl Hf. unfold alter_at. by erewrite alter_node_ext_at. Qed.

(** The directory at [p] after its entry [x] is updated. *)
Lemma lookup_alter_at_child clk f p x root nm t cs :
  lookup_in p root = Some (Dir nm t cs) ->
  lookup_in p (alter_at clk f (p ++ [x]) root) =
    Some (Dir nm (if Nat.eqb (length (alter_child x f cs)) (length cs) then t else clk)
              (alter_child x f cs)).
Proof.
  revert root; induction p as [|y p IH]; intros root Hl; simpl in Hl.
  - by injection Hl as ->.
  - destruct root as [| |rnm rt rcs]; try discriminate.
    destruct (child y rcs) as [c|] eqn:Hc; [|discriminate].
    unfold alter_at in *. simpl.
    assert (exists c', alter_node clk f (p ++ [x]) c = Some c' /\ node_name c' = y)
      as (c' & Hc' & Hnm).
    { pose proof (child_In _ _ _ Hc) as [_ <-].
      destruct p as [|p0 p];
        [exact (alter_node_cons_Some clk f x [] c)
        |exact (alter_node_cons_Some clk f p0 (p ++ [x]) c)]. }
    rewrite (child_alter_child_eq y _ rcs c c' Hc Hc' Hnm).
    specialize (IH c Hl). rewrite Hc' in IH. exact IH.
Qed.

Lemma child_app_notin x l1 c l2 :
  x ∉ map node_name l1 -> node_name c = x -> child x (l1 ++ c :: l2) = Some c.
Proof.
  induction l1 as [|c1 l1 IH]; simpl; intros Hn Hc.
  - by rewrite decide_True.
  - rewrite decide_False by (intros <-; apply Hn; left). apply IH; [|done].
    intros Hin. apply Hn. by right.
Qed.

Lemma alter_child_app_notin x g l1 c l2 :
  x ∉ map node_name l1 -> node_name c = x ->
  alter_child x g (l1 ++ c :: l2) =
    l1 ++ match g c with Some c' => [c'] | None => [] end ++ l2.
Proof.
  induction l1 as [|c1 l1 IH]; simpl; intros Hn Hc.
  - rewrite decide_True by done. by destruct (g c).
  - rewrite decide_False by (intros <-; apply Hn; left). f_equal. apply IH; [|done].
    intros Hin. apply Hn. by right.
Qed.

Lemma alter_child_id x g cs c :
  child x cs = Some c -> g c = Some c -> alter_child x g cs = cs.
Proof.
  induction cs as [|c0 cs IH]; simpl; [discriminate|].
  case_decide; [intros [= <-] ->; done|]. intros Hc Hg. by rewrite IH.
Qed.

Lemma alter_node_id clk f r n c :
  lookup_in r n = Some c -> f c = Some c -> alter_node clk f r n = Some n.
Proof.
  revert n; induction r as [|y r IH]; intros n Hl Hf; simpl in *.
  - by injection Hl as ->.
  - destruct n as [| |nm t cs]; try done.
    destruct (child y cs) as [c0|] eqn:Hc; [|discriminate].
    rewrite (alter_child_id y _ cs c0 Hc (IH c0 Hl Hf)). by rewrite Nat.eqb_refl.
Qed.

Lemma alter_at_id clk f r root c :
  lookup_in r root = Some c -> f c = Some c -> alter_at clk f r root = root.
Proof. intros Hl Hf. unfold alter_at. by rewrite (alter_node_id clk f r root c). Qed.

Lemma disjoint_snoc q p x : disjoint q p -> disjoint q (p ++ [x]).
Proof.
  intros (pre & y & z & q' & p' & Hne & -> & ->).
  exists pre, y, z, q', (p' ++ [x]). split; [done|]. split; [done|].
  by rewrite <- app_assoc.
Qed.

(** The node at [p] after [f] rewrote it. *)
Lemma lookup_alter_at_self clk f p root n n' :
  keeps_name f -> lookup_in p root = Some n -> f n = Some n' ->
  lookup_in p (alter_at clk f p root) = Some n'.
Proof.
  intros Hk. revert root; induction p as [|y p IH]; intros root Hl Hf; simpl in Hl.
  - injection Hl as ->. unfold alter_at. simpl. by rewrite Hf.
  - destruct root as [| |rnm rt rcs]; try discriminate.
    destruct (child y rcs) as [c|] eqn:Hc; [|discriminate].
    pose proof (child_In _ _ _ Hc) as [_ Hy].
    assert (exists c', alter_node clk f p c = Some c' /\ node_name c' = node_name c)
      as (c' & Hc' & Hnm).
    { destruct p as [|p0 p]; [|apply alter_node_cons_Some].
      simpl in Hl |- *. injection Hl as ->. exists n'. split; [done|]. exact (Hk _ _ Hf). }
    unfold alter_at. simpl. rewrite (child_alter_child_eq y _ rcs c c' Hc Hc') by congruence.
    specialize (IH c Hl Hf). unfold alter_at in IH. by rewrite Hc' in IH.
Qed.

(** ** Heights

    The walk of [clean_old_logs] is bounded by the height of the tree
    below the logs folder; these lemmas show that no update of the kind
    the cleaners make raises the height of the node at a path. *)

Definition hmax (cs : list node) : nat := fold_right (fun c m => Nat.max (height c) m) 0%nat cs.

Lemma height_Dir nm t cs : height (Dir nm t cs) = S (hmax cs).
Proof. reflexivity. Qed.

(** The height of the node at [q] (0 when there is none). *)
Definition height_at (q : path) (r : node) : nat :=
  match lookup_in q r with Some n => height n | None => 0%nat end.

Lemma height_at_cons x q nm t cs :
  height_at (x :: q) (Dir nm t cs) = match child x cs with Some c => height_at q c | None => 0%nat end.
Proof. unfold height_at. simpl. by destruct (child x cs). Qed.

(** An update that never makes a node higher. *)
Definition lowers (f : node -> option node) : Prop :=
  forall n n', f n = Some n' -> (height n' <= height n)%nat.

Lemma child_height x cs c : child x cs = Some c -> (height c <= hmax cs)%nat.
Proof.
  induction cs as [|c0 cs IH]; simpl; [discriminate|].
  case_decide; [intros [= <-]; lia|]. intros Hc. specialize (IH Hc). lia.
Qed.

(** One level down, the height drops by one. *)
Lemma height_at_snoc q x r : (height_at (q ++ [x]) r <= pred (height_at q r))%nat.
Proof.
  unfold height_at. rewrite lookup_in_app.
  destruct (lookup_in q r) as [[| |nm t cs]|]; simpl; try lia.
  destruct (child x cs) as [c|] eqn:Hc; simpl; [|lia].
  pose proof (child_height x cs c Hc). unfold hmax in *. lia.
Qed.

Lemma hmax_alter_child x g cs : lowers g -> (hmax (alter_child x g cs) <= hmax cs)%nat.
Proof.
  intros Hg. induction cs as [|c cs IH]; simpl; [lia|].
  case_decide; simpl; [|lia].
  destruct (g c) as [c'|] eqn:E; simpl; [apply Hg in E|]; lia.
Qed.

Lemma alter_node_lowers clk f p : lowers f -> lowers (alter_node clk f p).
Proof.
  intros Hf. induction p as [|x p IH]; intros n n' H; simpl in H; [by apply Hf|].
  destruct n as [| |nm t cs]; try (injection H as <-; lia).
  injection H as <-. rewrite !height_Dir. pose proof (hmax_alter_child x _ cs IH). lia.
Qed.

Lemma alter_at_lowers clk f p root : lowers f -> (height (alter_at clk f p root) <= height root)%nat.
Proof.
  intros Hf. unfold alter_at. destruct (alter_node clk f p root) as [r|] eqn:E; [|lia].
  exact (alter_node_lowers clk f p Hf _ _ E).
Qed.

Lemma alter_child_absent x g cs : child x cs = None -> alter_child x g cs = cs.
Proof.
  induction cs as [|c cs IH]; simpl; [done|]. case_decide; [discriminate|].
  intros Hc. by rewrite IH.
Qed.

Lemma alter_node_nonempty_Some clk f p n :
  p <> [] -> exists n', alter_node clk f p n = Some n' /\ node_name n' = node_name n.
Proof. destruct p; [done|]. intros _. apply alter_node_cons_Some. Qed.

(** An update strictly below [q] does not raise the node at [q]. *)
Lemma height_at_alter_below clk f q x r root :
  lowers f -> (height_at q (alter_at clk f (q ++ x :: r) root) <= height_at q root)%nat.
Proof.
  intros Hf. revert root; induction q as [|y q IH]; intros root.
  - apply alter_at_lowers, Hf.
  - destruct root as [| |nm t cs]; [done|done|]. unfold alter_at. simpl.
    rewrite !height_at_cons.
    destruct (child y cs) as [c|] eqn:Hc; [|rewrite (alter_child_absent y _ cs Hc), Hc; lia].
    destruct (alter_node_nonempty_Some clk f (q ++ x :: r) c) as (c' & Hc' & Hn);
      [by destruct q|].
    pose proof (child_In y cs c Hc) as [_ Hy].
    rewrite (child_alter_child_eq y _ cs c c' Hc Hc') by congruence.
    specialize (IH c). unfold alter_at in IH. by rewrite Hc' in IH.
Qed.

(** An update at a path strictly below [q], or apart from it, does not
    raise the node at [q]. *)
Lemma height_at_alter clk f z q root :
  lowers f -> keeps_name f -> (exists x r, z = q ++ x :: r) \/ disjoint q z ->
  (height_at q (alter_at clk f z root) <= height_at q root)%nat.
Proof.
  intros Hf Hk [(x & r & ->)|Hd]; [by apply height_at_alter_below|].
  unfold height_at. by rewrite lookup_alter_at_disjoint.
Qed.
