(* ===== verification/FolderSize.v ===== *)
(** * FolderSize: [get_folder_size] (src/cleanup.py, lines 33-43).

    The Python code sums [os.path.getsize] over the file names [os.walk]
    yields, inside one [try] whose [except] returns the running total.
    [os.walk] goes top-down: for a directory it yields its non-directory
    entries first, then descends into its subdirectories in listing
    order; a path that is not a directory yields nothing.  A dangling
    link is listed among the file names and [getsize] on it raises, which
    ends the whole walk: the total so far is returned.  [walk] follows
    that order and returns the running total with a flag saying whether
    the walk was cut short.  The reference specification is [tree_size],
    the bytes of all regular files below the path. *)

From S2P Require Import Prelude FileTree.

Section Walk.
  (** The file names of one directory, in listing order: [getsize] adds
      a file's size and raises on a dangling link. *)
Fixpoint walk_files (cs : list node) (acc : Z) : Z * bool :=
    match cs with
    | [] => (acc, false)
    | File _ s _ _ :: r => walk_files r (acc + s)
    | Link _ _ :: _ => (acc, true)
    | Dir _ _ _ :: r => walk_files r acc
    end.

  (** The subdirectories of one directory, in listing order. *)
Definition walk_subdirs (walk : node -> Z -> Z * bool) : list node -> Z -> Z * bool :=
    fix go (cs : list node) (acc : Z) : Z * bool :=
      match cs with
      | [] => (acc, false)
      | c :: r =>
          if node_is_dir c then
            match walk c acc with
            | (a, true) => (a, true)
            | (a, false) => go r a
            end
          else go r acc
      end.

Fixpoint walk (n : node) (acc : Z) : Z * bool :=
    match n with
    | Dir _ _ cs =>
        match walk_files cs acc with
        | (a, true) => (a, true)
        | (a, false) => walk_subdirs walk cs a
        end
    | _ => (acc, false)
    end.
End Walk.

(** [get_folder_size(folder_path)]: [None] stands for a [None] path
    (unset environment variable), on which [os.walk] raises a
    [TypeError] that the [except] swallows. *)
Definition get_folder_size (folder_path : option path) (root : node) : Z :=
  match folder_path with
  | None => 0
  | Some p =>
      match lookup_in p root with
      | Some n => fst (walk n 0)
      | None => 0
      end
  end.

(** No dangling link anywhere in the tree. *)
Fixpoint link_free (n : node) : bool :=
  match n with
  | File _ _ _ _ => true
  | Link _ _ => false
  | Dir _ _ cs => forallb link_free cs
  end.

(** ** How [tree_size] splits between the two passes of [os.walk] *)

Definition file_bytes (c : node) : Z :=
  match c with File _ s _ _ => s | _ => 0 end.
Definition dir_bytes (c : node) : Z :=
  if node_is_dir c then tree_size c else 0.

Lemma sumZ_add {A} (f g : A -> Z) l :
  sumZ (fun x => f x + g x) l = sumZ f l + sumZ g l.
Proof. induction l; simpl; lia. Qed.

Lemma tree_size_split cs :
  sumZ tree_size cs = sumZ file_bytes cs + sumZ dir_bytes cs.
Proof.
  rewrite <- sumZ_add. apply sumZ_ext, Forall_forall.
  intros [] _; unfold file_bytes, dir_bytes; simpl; lia.
Qed.

Lemma dir_bytes_nodir c : node_is_dir c = false -> dir_bytes c = 0.
Proof. unfold dir_bytes. by intros ->. Qed.

Lemma walk_files_exact cs acc :
  forallb link_free cs = true ->
  walk_files cs acc = (acc + sumZ file_bytes cs, false).
Proof.
  revert acc; induction cs as [|[] cs IH]; intros acc Hlf; simpl in *;
    try discriminate.
  - f_equal; lia.
  - rewrite IH by done. f_equal; lia.
  - split_andb. rewrite IH by done. f_equal; lia.
Qed.

Lemma walk_subdirs_exact cs acc :
  Forall (fun c => forall acc, link_free c = true ->
                   walk c acc = (acc + dir_bytes c, false)) cs ->
  forallb link_free cs = true ->
  walk_subdirs walk cs acc = (acc + sumZ dir_bytes cs, false).
Proof.
  intros Hcs. revert acc; induction Hcs as [|c cs Hc Hcs IH]; intros acc Hlf;
    simpl in *.
  - f_equal; lia.
  - split_andb. destruct (node_is_dir c) eqn:Hd.
    + rewrite Hc by done. rewrite IH by done. f_equal; lia.
    + rewrite IH by done. rewrite (dir_bytes_nodir c Hd). f_equal; lia.
Qed.

Lemma walk_exact n acc :
  link_free n = true -> walk n acc = (acc + dir_bytes n, false).
Proof.
  revert acc; induction n as [nm s t l|nm t|nm t cs IH] using node_ind;
    intros acc Hlf; unfold dir_bytes; simpl in *; try discriminate.
  - f_equal; lia.
  - rewrite walk_files_exact by done. rewrite walk_subdirs_exact by done.
    rewrite tree_size_split. f_equal; lia.
Qed.

(** ** Bounds: the walk never counts more than the tree holds *)

Definition within (acc : Z) (r : Z * bool) (bound : Z) : Prop :=
  acc <= fst r <= acc + bound.

Lemma file_bytes_nonneg c : wf c -> 0 <= file_bytes c.
Proof. destruct c; simpl; try lia. by intros ?%wf_File. Qed.

Lemma walk_files_within cs acc :
  Forall wf cs -> within acc (walk_files cs acc) (sumZ file_bytes cs).
Proof.
  unfold within. revert acc; induction cs as [|[] cs IH]; intros acc Hwf;
    simpl; inversion Hwf as [|? ? Hc Hcs]; subst; try lia.
  - apply wf_File in Hc. specialize (IH (acc + size) Hcs). lia.
  - pose proof (sumZ_nonneg_wf file_bytes cs file_bytes_nonneg Hcs). lia.
  - specialize (IH acc Hcs). lia.
Qed.

Lemma dir_bytes_nonneg c : wf c -> 0 <= dir_bytes c.
Proof. unfold dir_bytes. destruct (node_is_dir c); auto with cleanup; lia. Qed.

Lemma walk_subdirs_within cs acc :
  Forall (fun c => forall acc, wf c -> within acc (walk c acc) (dir_bytes c)) cs ->
  Forall wf cs ->
  within acc (walk_subdirs walk cs acc) (sumZ dir_bytes cs).
Proof.
  unfold within. intros Hcs. revert acc.
  induction Hcs as [|c cs Hc Hcs IH]; intros acc Hwf; simpl; [lia|].
  inversion Hwf as [|? ? Hwc Hwcs]; subst.
  pose proof (sumZ_nonneg_wf dir_bytes cs dir_bytes_nonneg Hwcs).
  pose proof (dir_bytes_nonneg c Hwc).
  destruct (node_is_dir c) eqn:Hd.
  - specialize (Hc acc Hwc). destruct (walk c acc) as [a []]; simpl in *.
    + lia.
    + specialize (IH a Hwcs). lia.
  - specialize (IH acc Hwcs). rewrite (dir_bytes_nodir c Hd). lia.
Qed.

Lemma walk_within n acc : wf n -> within acc (walk n acc) (dir_bytes n).
Proof.
  revert acc; induction n as [nm s t l|nm t|nm t cs IH] using node_ind;
    intros acc Hwf; unfold within, dir_bytes; simpl.
  - lia.
  - lia.
  - apply wf_Dir in Hwf as [_ Hwcs]. rewrite tree_size_split.
    pose proof (walk_files_within cs acc Hwcs) as Hf. unfold within in Hf.
    destruct (walk_files cs acc) as [a []]; simpl in *.
    + pose proof (sumZ_nonneg_wf dir_bytes cs dir_bytes_nonneg Hwcs). lia.
    + pose proof (walk_subdirs_within cs a IH Hwcs) as Hd. unfold within in Hd. lia.
Qed.

(** ** Properties of [get_folder_size] *)

(** [C21] Equivalence with the reference: on a directory with no dangling
    link, [get_folder_size] returns exactly the bytes of all regular
    files below it; on a path that is a file it returns 0, because
    [os.walk] yields nothing for a non-directory. *)
Theorem get_folder_size_exact p root n :
  lookup_in p root = Some n -> link_free n = true ->
  get_folder_size (Some p) root = dir_bytes n.
Proof.
  intros Hl Hlf. unfold get_folder_size. rewrite Hl, walk_exact by done.
  simpl. lia.
Qed.

Definition sample_temp : node :=
  Dir "Temp" 0 [File "a.tmp" 10 0 false; Dir "sub" 0 [File "b.tmp" 5 0 false]].
Definition sample_tree : node := Dir "" 0 [Dir "C:" 0 [sample_temp]].

Example get_folder_size_exact_witness :
  lookup_in ["C:"; "Temp"] sample_tree = Some sample_temp /\
  get_folder_size (Some ["C:"; "Temp"]) sample_tree = 15.
Proof.
  split; [reflexivity|].
  transitivity (dir_bytes sample_temp); [|reflexivity].
  apply get_folder_size_exact; reflexivity.
Defined.

(** [C22] Bounds: on a well-formed tree, the measured size of an existing
    path is non-negative and never exceeds the bytes below it; the
    measurement of a missing path or of a [None] path is 0, so the
    function never fails. *)
Theorem get_folder_size_bounds p root :
  wf root ->
  match p ≫= fun p => lookup_in p root with
  | Some n => 0 <= get_folder_size p root <= dir_bytes n
  | None => get_folder_size p root = 0
  end.
Proof.
  intros Hwf. destruct p as [p|]; simpl; [|reflexivity].
  unfold get_folder_size. destruct (lookup_in p root) as [n|] eqn:Hl; [|reflexivity].
  pose proof (walk_within n 0 (wf_lookup_in p root n Hwf Hl)) as H.
  unfold within in H. lia.
Qed.

Example get_folder_size_bounds_witness :
  wf sample_tree /\ 0 <= get_folder_size (Some ["C:"; "Temp"]) sample_tree <= 15.
Proof.
  split; [reflexivity|].
  exact (get_folder_size_bounds (Some ["C:"; "Temp"]) sample_tree eq_refl).
Defined.

(** The files pass over the entries of a directory up to its first
    dangling link. *)
Lemma walk_files_link pre l tl post acc :
  forallb (fun c => negb (is_link c)) pre = true ->
  walk_files (pre ++ Link l tl :: post) acc = (acc + sumZ file_bytes pre, true).
Proof.
  revert acc; induction pre as [|[] pre IH]; intros acc Hpre; simpl in *;
    try discriminate.
  - f_equal; lia.
  - rewrite IH by done. f_equal; lia.
  - rewrite IH by done. f_equal; lia.
Qed.

(** [C23] The walk stops at the first dangling link: for a directory whose
    entries are [pre], a dangling link, then [post], with no dangling link
    in [pre], [get_folder_size] returns the sizes of the files of [pre]
    only; the files of [post] and every subdirectory, wherever listed, are
    not counted (the spec asks that an unreadable entry contribute zero
    and the walk go on). *)
Theorem get_folder_size_stops_at_link p root nm t pre l tl post :
  lookup_in p root = Some (Dir nm t (pre ++ Link l tl :: post)) ->
  forallb (fun c => negb (is_link c)) pre = true ->
  get_folder_size (Some p) root = sumZ file_bytes pre.
Proof.
  intros Hl Hpre. unfold get_folder_size. rewrite Hl. simpl.
  rewrite walk_files_link by exact Hpre. simpl. lia.
Qed.

Example get_folder_size_stops_at_link_witness :
  lookup_in ["Logs"] (Dir "" 0 [Dir "Logs" 0 [Link "old.lnk" 0; File "big.log" 100 0 false]]) =
    Some (Dir "Logs" 0 ([] ++ Link "old.lnk" 0 :: [File "big.log" 100 0 false])) /\
  get_folder_size (Some ["Logs"])
    (Dir "" 0 [Dir "Logs" 0 [Link "old.lnk" 0; File "big.log" 100 0 false]]) = 0.
Proof.
  split; [reflexivity|].
  exact (get_folder_size_stops_at_link ["Logs"]
           (Dir "" 0 [Dir "Logs" 0 [Link "old.lnk" 0; File "big.log" 100 0 false]]) "Logs" 0 [] "old.lnk" 0
           [File "big.log" 100 0 false] eq_refl eq_refl).
Defined.
