(* ===== verification/FsOps.v ===== *)
(** * FsOps: the world the script runs in, and the library calls it makes.

    The world holds the filesystem (one root [node]; the absolute path
    ["C:"; "Windows"; "Temp"] stands for C:\Windows\Temp), the clock, and
    the trace of observable events: the records written by [logger]
    (level and a structured message standing for the Russian text) and
    the Telegram messages sent.  The clock does not advance during a run:
    [datetime.now()] and the time stamped on a directory that loses an
    entry are the same instant.

    The primitives follow Python 3.12 on Windows:
    - [os.path.exists] follows links (a dangling link does not exist) and
      raises [TypeError] on [None];
    - [Path.stat()] raises [FileNotFoundError] on a dangling link;
    - [Path.unlink()] removes a file or a link, raises [PermissionError]
      on a file another process holds open and on a directory;
    - [shutil.rmtree(p, ignore_errors=True)] removes every entry it can
      bottom-up; a directory that keeps an entry cannot be removed; every
      failure is ignored;
    - [Path.glob("*")] lists the entries of a directory in listing order
      (a snapshot taken when iteration starts), nothing for a non-directory. *)

From S2P Require Import Prelude FileTree FolderSize.

(** ** Exceptions *)

Inductive exn : Type :=
| PermissionError (p : path)
| FileNotFoundError (p : path)
| TypeError
| NetworkError.  (** what [telegram.Bot.send_message] raises when it fails *)

(** ** The events of a run *)

(** The cleaners, as named in the log. *)
Inductive target : Type :=
| TBrowserCache
| TSystemFolder (p : option path)
| TOldLogs
| TRecycleBin.

Inductive message : Type :=
| MRunStart
| MStart (t : target) (p : option path)
| MNotFound (t : target) (p : option path)
| MDryRun (p : path)
| MDeleted (p : path)
| MDeleteFailed (p : path) (e : exn)
| MFreed (t : target) (bytes : Z)
| MBinDryRun
| MBinFailed (e : exn)
| MTargetFailed (t : target) (e : exn)
| MNoCredentials
| MNotifySent
| MNotifyFailed (e : exn)
| MRunDone (bytes : Z).

Inductive event : Type :=
| Info (m : message)
| Warning (m : message)
| Error (m : message)
| Telegram (token chat_id text : string).

Record world : Type := mk_world {
  fs : node;
  clock : Z;
  trace : list event;
}.

Definition set_fs (r : node) (w : world) : world := mk_world r (clock w) (trace w).
Definition add_event (e : event) (w : world) : world :=
  mk_world (fs w) (clock w) (trace w ++ [e]).

(** The monad of the script. *)
Abbreviation CM := (M world exn).

Definition emit (e : event) : CM unit := modify (add_event e).

(** ** Reading the filesystem *)

Definition lookup (p : path) : CM (option node) := gets (fun w => lookup_in p (fs w)).

Definition os_path_exists (p : option path) : CM bool :=
  match p with
  | None => raise TypeError
  | Some p =>
      gets (fun w => match lookup_in p (fs w) with
                     | Some (File _ _ _ _) | Some (Dir _ _ _) => true
                     | _ => false
                     end)
  end.

Definition folder_size (p : option path) : CM Z := gets (fun w => get_folder_size p (fs w)).

Definition is_file (p : path) : CM bool :=
  gets (fun w => match lookup_in p (fs w) with Some n => node_is_file n | None => false end).

Definition is_dir (p : path) : CM bool :=
  gets (fun w => match lookup_in p (fs w) with Some n => node_is_dir n | None => false end).

(** [Path(p).glob("*")]: the entries of [p], as paths. *)
Definition glob (p : path) : CM (list path) :=
  gets (fun w => match lookup_in p (fs w) with
                 | Some (Dir _ _ cs) => map (fun c => p ++ [node_name c]) cs
                 | _ => []
                 end).

(** [Path(p).stat()]: modification time and size; a dangling link or a
    missing path raises.  A directory's [st_size] is 0 on Windows. *)
Record stat_result : Type := mk_stat { st_mtime : Z; st_size : Z }.

Definition stat (p : path) : CM stat_result :=
  fun w => match lookup_in p (fs w) with
           | Some (File _ s t _) => (Ok (mk_stat t s), w)
           | Some (Dir _ t _) => (Ok (mk_stat t 0), w)
           | _ => (Raise (FileNotFoundError p), w)
           end.

(** ** Changing the filesystem *)

Definition alter_fs (f : node -> option node) (p : path) : CM unit :=
  modify (fun w => set_fs (alter_at (clock w) f p (fs w)) w).

(** [Path(p).unlink()]. *)
Definition unlink (p : path) : CM unit :=
  fun w => match lookup_in p (fs w) with
           | Some (File _ _ _ false) | Some (Link _ _) => alter_fs (fun _ => None) p w
           | Some (File _ _ _ true) | Some (Dir _ _ _) => (Raise (PermissionError p), w)
           | None => (Raise (FileNotFoundError p), w)
           end.

(** What [shutil.rmtree(ignore_errors=True)] leaves of a node: unlocked
    files and links go, locked files stay, a directory goes when all its
    entries went; a directory that lost an entry is stamped [clk]. *)
Definition rm_list (rm : node -> option node) : list node -> list node :=
  fix go (cs : list node) : list node :=
    match cs with
    | [] => []
    | c :: r => match rm c with Some c' => c' :: go r | None => go r end
    end.

Fixpoint rm_node (clk : Z) (n : node) : option node :=
  match n with
  | File _ _ _ true => Some n
  | File _ _ _ false => None
  | Link _ _ => None
  | Dir nm t cs =>
      match rm_list (rm_node clk) cs with
      | [] => None
      | cs' => Some (Dir nm (if Nat.eqb (length cs') (length cs) then t else clk) cs')
      end
  end.

(** [shutil.rmtree(p, ignore_errors=True)]: on a path that is not a
    directory nothing happens (scandir and rmdir fail, both ignored). *)
Definition rmtree (p : path) : CM unit :=
  fun w => match lookup_in p (fs w) with
           | Some (Dir _ _ _) => alter_fs (rm_node (clock w)) p w
           | _ => (Ok tt, w)
           end.

Lemma rm_node_keeps_name clk : keeps_name (rm_node clk).
Proof.
  intros [nm s t []|nm t|nm t cs] n'; simpl; [..|destruct (rm_list _ cs)];
    intros H; try discriminate; by injection H as <-.
Qed.

Lemma hmax_rm_list g cs :
  Forall (fun c => forall c', g c = Some c' -> (height c' <= height c)%nat) cs ->
  (hmax (rm_list g cs) <= hmax cs)%nat.
Proof.
  induction 1 as [|c cs Hc _ IH]; simpl; [lia|].
  destruct (g c) as [c'|]; simpl; [specialize (Hc c' eq_refl)|]; unfold hmax in *; lia.
Qed.

(** What [rmtree] leaves of a node is no higher than the node. *)
Lemma rm_node_lowers clk : lowers (rm_node clk).
Proof.
  intros n. induction n as [nm s t []|nm t|nm t cs IH] using node_ind; intros n' H; simpl in H;
    try (injection H as <-); try discriminate; try lia.
  destruct (rm_list (rm_node clk) cs) as [|c cs'] eqn:E; [discriminate|].
  injection H as <-. rewrite !height_Dir, <- E. apply le_n_S, hmax_rm_list, IH.
Qed.

Lemma sumZ_rm_list (f : node -> Z) g cs :
  sumZ f (rm_list g cs) = sumZ (fun c => match g c with Some c' => f c' | None => 0 end) cs.
Proof. induction cs as [|c cs IH]; simpl; [done|]. destruct (g c); simpl; lia. Qed.

Lemma forallb_rm_list (P : node -> bool) g cs :
  Forall (fun c => forall c', P c = true -> g c = Some c' -> P c' = true) cs ->
  forallb P cs = true -> forallb P (rm_list g cs) = true.
Proof.
  induction 1 as [|c cs Hc _ IH]; simpl; [done|]. intros H. split_andb.
  destruct (g c) as [c'|] eqn:E; simpl; [|auto]. rewrite (Hc c') by done. auto.
Qed.

(** [rmtree] leaves no dangling link behind one that had none. *)
Lemma rm_node_link_free clk n n' : link_free n = true -> rm_node clk n = Some n' -> link_free n' = true.
Proof.
  revert n'. induction n as [nm s t l|nm t|nm t cs IH] using node_ind; intros n' Hl H;
    simpl in *; try discriminate.
  - destruct l; [by injection H as <-|discriminate].
  - destruct (rm_list (rm_node clk) cs) as [|c cs'] eqn:E; [discriminate|].
    injection H as <-. change (forallb link_free (c :: cs') = true). rewrite <- E. apply forallb_rm_list; [|done].
    eapply Forall_impl; [|exact IH]. intros c0 Hc0 c1. apply Hc0.
Qed.

(** No file below the node is held open. *)
Fixpoint no_open_files (n : node) : bool :=
  match n with
  | File _ _ _ l => negb l
  | Link _ _ => true
  | Dir _ _ cs => forallb no_open_files cs
  end.

(** Then [rmtree] removes the whole tree. *)
Lemma rm_node_no_open clk n : no_open_files n = true -> rm_node clk n = None.
Proof.
  induction n as [nm s t l|nm t|nm t cs IH] using node_ind; intros Hn; simpl in *.
  - by destruct l.
  - done.
  - enough (rm_list (rm_node clk) cs = []) as -> by done.
    induction IH as [|c cs Hc _ IHcs]; simpl in *; [done|]. split_andb.
    rewrite Hc by done. auto.
Qed.

Lemma world_eta w : w = mk_world (fs w) (clock w) (trace w).
Proof. by destruct w. Qed.

(** The bytes of the regular files below a path. *)
Definition bytes_at (p : path) (root : node) : Z :=
  match lookup_in p root with Some n => tree_size n | None => 0 end.

(** A world at clock [clk] with an empty log. *)
Definition world0 (root : node) (clk : Z) : world := mk_world root clk [].

(** ** Operations that leave the filesystem as it is *)

Section ReadOnly.
Context (r : node).
Definition fs_is (w : world) : Prop := fs w = r.

Lemma preserves_emit e : preserves fs_is (emit e).
Proof. intros w Hw. exact Hw. Qed.
Lemma preserves_stat p : preserves fs_is (stat p).
Proof. intros w Hw. unfold exec, stat. by destruct (lookup_in p (fs w)) as [[]|]. Qed.
End ReadOnly.

#[export] Hint Resolve preserves_emit preserves_stat : cleanup.

(** ** Operations that send no Telegram message *)

Definition is_telegram (e : event) : bool :=
  match e with Telegram _ _ _ => true | _ => false end.

Section Quiet.
Context (n : list event).
(** The Telegram messages sent so far are [n]. *)
Definition tg_is (w : world) : Prop := List.filter is_telegram (trace w) = n.

Lemma preserves_log e : is_telegram e = false -> preserves tg_is (emit e).
Proof.
  intros He w Hw. unfold tg_is, exec. simpl.
  rewrite List.filter_app, Hw. simpl. rewrite He. apply app_nil_r.
Qed.
Lemma preserves_info m : preserves tg_is (emit (Info m)).
Proof. by apply preserves_log. Qed.
Lemma preserves_warning m : preserves tg_is (emit (Warning m)).
Proof. by apply preserves_log. Qed.
Lemma preserves_error m : preserves tg_is (emit (Error m)).
Proof. by apply preserves_log. Qed.
Lemma preserves_stat_tg p : preserves tg_is (stat p).
Proof. intros w Hw. unfold exec, stat. by destruct (lookup_in p (fs w)) as [[]|]. Qed.
Lemma preserves_alter_fs f p : preserves tg_is (alter_fs f p).
Proof. intros w Hw. exact Hw. Qed.
Lemma preserves_unlink p : preserves tg_is (unlink p).
Proof.
  intros w Hw. unfold exec, unlink. by destruct (lookup_in p (fs w)) as [[? ? ? []| |]|].
Qed.
Lemma preserves_rmtree p : preserves tg_is (rmtree p).
Proof. intros w Hw. unfold exec, rmtree. by destruct (lookup_in p (fs w)) as [[]|]. Qed.
End Quiet.

#[export] Hint Resolve preserves_info preserves_warning preserves_error preserves_stat_tg
  preserves_alter_fs preserves_unlink preserves_rmtree : cleanup.
