(* ===== verification/Policy.v ===== *)
(** * Policy: the deletion policy the cleaners are meant to implement.

    This is the abstract specification of the design (the "entry
    classifier"): a rule set per kind of target, a classification of an
    entry into keep / delete the file / delete the subtree, with the
    precedence the design gives (exclusions, then the allow-list of
    subdirectories, then the age cutoff, then delete), and the effect on
    the filesystem of carrying a decision out.  It is not a translation
    of code: the files of the cleaners prove that their code refines it,
    or exhibit where it does not. *)

From S2P Require Import Prelude FileTree FolderSize FsOps.

Inductive decision : Type := Keep | DeleteFile | DeleteSubtree.

#[export] Instance decision_eq_dec : EqDecision decision.
Proof. solve_decision. Defined.

Record rule_set : Type := mk_rules {
  excluded : list string;              (** names never deleted *)
  allowed_dirs : option (list string); (** the only subdirectories deleted *)
  cutoff : option Z;                   (** entries modified after it are kept *)
}.

Definition classify (rs : rule_set) (c : node) : decision :=
  let nm := node_name c in
  if decide (nm ∈ excluded rs) then Keep
  else
    match allowed_dirs rs, node_is_dir c with
    | Some ds, true => if decide (nm ∈ ds) then DeleteSubtree else Keep
    | _, _ =>
        match cutoff rs with
        | Some co => if bool_decide (co < node_mtime c) then Keep
                     else if node_is_dir c then DeleteSubtree else DeleteFile
        | None => if node_is_dir c then DeleteSubtree else DeleteFile
        end
    end.

(** Removing a single entry: an open file stays, everything else goes. *)
Definition remove_entry (c : node) : option node :=
  match c with
  | File _ _ _ true => Some c
  | _ => None
  end.

(** What carrying a decision out leaves of the entry. *)
Definition apply_decision (clk : Z) (d : decision) (c : node) : option node :=
  match d with
  | Keep => Some c
  | DeleteFile => remove_entry c
  | DeleteSubtree => rm_node clk c
  end.

(** The rule sets of the design's target kinds. *)
Definition browser_rules : rule_set :=
  mk_rules ["Cookies"; "Cookies-journal"] (Some ["Cache"; "Cache2"; "Code Cache"]) None.
Definition generic_rules : rule_set := mk_rules [] None None.
Definition aged_rules (cutoff_time : Z) : rule_set := mk_rules [] None (Some cutoff_time).

