(* ===== verification/Sweep.v ===== *)
(** * Sweep: the loop [for item in pathlib.Path(p).glob("*"): ...].

    [clean_yandex_browser_cache] and [clean_system_folder] both iterate
    over a snapshot of the entries of one directory and, inside a
    [try]/[except] that swallows every exception, decide for the entry and
    delete it or not.  This file proves, once for both, what such a loop
    does, from a specification of one iteration: an iteration on an entry
    [c] returns the running total plus [h c], replaces the entry by
    [g clk c] (removing it when [None]) and appends [ev item c] to the
    trace.  The loop then returns the total of [h] over the entries, the
    directory ends with the entries [rm_list (g clk) cs], its modification
    time is stamped when it lost an entry, the trace is the iterations'
    events in listing order, and no path outside the directory changes. *)

From S2P Require Import Prelude FileTree FolderSize FsOps.

(** The modification time of a directory whose entries went from
    [before] to [after]. *)
Definition stamp (t clk : Z) (before after : list node) : Z :=
  if Nat.eqb (length after) (length before) then t else clk.

(** The path [glob] yields for entry [c] of directory [p]. *)
Definition item_of (p : path) (c : node) : path := p ++ [node_name c].

Lemma rm_list_app g l1 l2 : rm_list g (l1 ++ l2) = rm_list g l1 ++ rm_list g l2.
Proof. induction l1 as [|c l1 IH]; simpl; [done|]. destruct (g c); by rewrite IH. Qed.

Lemma rm_list_length g l : (length (rm_list g l) <= length l)%nat.
Proof. induction l as [|c l IH]; simpl; [lia|]. destruct (g c); simpl; lia. Qed.

Lemma rm_list_names g l y :
  keeps_name g -> y ∈ map node_name (rm_list g l) -> y ∈ map node_name l.
Proof.
  intros Hg. induction l as [|c l IH]; simpl; [done|].
  destruct (g c) as [c'|] eqn:Hc; simpl; rewrite ?elem_of_cons.
  - apply Hg in Hc. rewrite Hc. intros [->|H]; [by left|right; auto].
  - intros H; right; auto.
Qed.

Lemma stamp_nil t clk g : stamp t clk [] (rm_list g []) = t.
Proof. reflexivity. Qed.

Lemma stamp_snoc t clk g l c :
  (if Nat.eqb (length (rm_list g l ++ match g c with Some c' => [c'] | None => [] end))
              (length (rm_list g l ++ [c]))
   then stamp t clk l (rm_list g l) else clk) =
  stamp t clk (l ++ [c]) (rm_list g (l ++ [c])).
Proof.
  unfold stamp. rewrite rm_list_app. simpl.
  pose proof (rm_list_length g l) as Hle. rewrite !length_app.
  destruct (g c); simpl; repeat case Nat.eqb_spec; intros; try lia; reflexivity.
Qed.

Section Loop.
Context (step : path -> Z -> CM Z) (g : Z -> node -> option node)
          (h : node -> Z) (ev : path -> node -> list event).

Hypothesis g_keeps : forall clk, keeps_name (g clk).

  (** One iteration on the entry [c] of a directory [p]. *)
Hypothesis step_spec : forall w p c acc,
    lookup_in (item_of p c) (fs w) = Some c ->
    step (item_of p c) acc w =
      (Ok (acc + h c),
       mk_world (alter_at (clock w) (g (clock w)) (item_of p c) (fs w)) (clock w)
                (trace w ++ ev (item_of p c) c)).

Definition sweep_post (p : path) (nm : string) (t : Z) (cs : list node) (acc : Z)
      (w : world) (r : outcome exn Z * world) : Prop :=
    let clk := clock w in
    fst r = Ok (acc + sumZ h cs) /\
    clock (snd r) = clk /\
    trace (snd r) = trace w ++ concat (map (fun c => ev (item_of p c) c) cs) /\
    lookup_in p (fs (snd r)) =
      Some (Dir nm (stamp t clk cs (rm_list (g clk) cs)) (rm_list (g clk) cs)) /\
    forall q, disjoint q p -> lookup_in q (fs (snd r)) = lookup_in q (fs w).

Lemma sweep_loop p nm t0 rest : forall done acc w,
    lookup_in p (fs w) =
      Some (Dir nm (stamp t0 (clock w) done (rm_list (g (clock w)) done))
                   (rm_list (g (clock w)) done ++ rest)) ->
    NoDup (map node_name (done ++ rest)) ->
    let clk := clock w in
    let r := foldM step (map (item_of p) rest) acc w in
    fst r = Ok (acc + sumZ h rest) /\
    clock (snd r) = clk /\
    trace (snd r) = trace w ++ concat (map (fun c => ev (item_of p c) c) rest) /\
    lookup_in p (fs (snd r)) =
      Some (Dir nm (stamp t0 clk (done ++ rest) (rm_list (g clk) (done ++ rest)))
                   (rm_list (g clk) (done ++ rest))) /\
    forall q, disjoint q p -> lookup_in q (fs (snd r)) = lookup_in q (fs w).
  Proof.
    induction rest as [|c rest IH]; intros done acc w Hl Hnd; simpl.
    - rewrite app_nil_r in *. rewrite app_nil_r. split; [cbn; f_equal; lia|]. repeat split; auto.
    - set (x := node_name c).
      assert (Hx : x ∉ map node_name (rm_list (g (clock w)) done)).
      { intros Hin. apply rm_list_names in Hin; [|apply g_keeps].
        rewrite map_app in Hnd. simpl in Hnd.
        apply list.NoDup_app in Hnd as (_ & Hdis & _). apply (Hdis x Hin). by left. }
      assert (Hc : lookup_in (item_of p c) (fs w) = Some c).
      { unfold item_of. rewrite lookup_in_app, Hl. simpl.
        by rewrite child_app_notin. }
      rewrite run_bind, (step_spec w p c acc Hc).
      set (w1 := mk_world _ _ _).
      assert (Hl1 : lookup_in p (fs w1) =
        Some (Dir nm (stamp t0 (clock w1) (done ++ [c]) (rm_list (g (clock w1)) (done ++ [c])))
                     (rm_list (g (clock w1)) (done ++ [c]) ++ rest))).
      { simpl. unfold item_of. rewrite (lookup_alter_at_child _ _ _ _ _ _ _ _ Hl).
        rewrite alter_child_app_notin by done.
        rewrite <- (stamp_snoc t0 (clock w) (g (clock w)) done c).
        rewrite rm_list_app. simpl. rewrite <- !app_assoc.
        destruct (g (clock w) c); simpl; rewrite !length_app; simpl;
          repeat case Nat.eqb_spec; intros; try lia; reflexivity. }
      assert (Hnd1 : NoDup (map node_name ((done ++ [c]) ++ rest))).
      { by rewrite <- app_assoc. }
      destruct (IH (done ++ [c]) (acc + h c) w1 Hl1 Hnd1)
        as (Ho & Hclk & Htr & Hlp & Hfr).
      rewrite <- app_assoc in Hlp. simpl in Hlp.
      repeat split.
      + rewrite Ho. f_equal. lia.
      + exact Hclk.
      + rewrite Htr. simpl. by rewrite <- app_assoc.
      + exact Hlp.
      + intros q Hq. rewrite Hfr by exact Hq. simpl.
        apply lookup_alter_at_disjoint; [by apply disjoint_snoc|apply g_keeps].
  Qed.

  (** The loop over all the entries of the directory at [p]. *)
Theorem sweep_children p nm t cs acc w :
    lookup_in p (fs w) = Some (Dir nm t cs) ->
    NoDup (map node_name cs) ->
    sweep_post p nm t cs acc w (foldM step (map (item_of p) cs) acc w).
  Proof.
    intros Hl Hnd. apply (sweep_loop p nm t cs [] acc w); [|done].
    rewrite Hl. done.
  Qed.
End Loop.

(** Closes the per-iteration specification of a loop body, once the body
    is unfolded and the entry [c] is destructed: run the primitives on the
    entry found by [Hl], then match the resulting world. *)
Ltac item_spec_tac_with Hl fin :=
  cbv [try_except bind emit modify add_event mret M_ret mbind M_bind
       is_file is_dir gets stat unlink rmtree alter_fs folder_size set_fs];
  simpl; repeat (rewrite Hl; simpl); rewrite ?app_nil_r;
  f_equal; try (f_equal; lia); f_equal;
  first [ symmetry; apply (alter_at_id _ _ _ _ _ Hl); fin
        | apply (alter_at_ext_at _ _ _ _ _ _ Hl); fin ].
Ltac item_spec_tac Hl := item_spec_tac_with Hl ltac:(reflexivity).

(** An entry the iteration keeps as it is is still there after the loop. *)
Lemma child_rm_list_keep g x cs c :
  keeps_name g -> child x cs = Some c -> g c = Some c -> child x (rm_list g cs) = Some c.
Proof.
  intros Hg. induction cs as [|c0 cs IH]; simpl; [discriminate|].
  case_decide as Hx.
  - intros [= <-] ->. simpl. by rewrite decide_True.
  - intros Hc Hgc. destruct (g c0) as [c0'|] eqn:E; [|auto].
    simpl. rewrite decide_False; [auto|]. apply Hg in E. congruence.
Qed.

Lemma child_notin x cs : x ∉ map node_name cs -> child x cs = None.
Proof.
  induction cs as [|c cs IH]; simpl; [done|]. rewrite elem_of_cons. intros Hn.
  rewrite decide_False by (intros <-; apply Hn; by left). apply IH. intros H; apply Hn; by right.
Qed.

(** An entry the iteration removes is gone after the loop, when the names
    of the directory are distinct. *)
Lemma child_rm_list_removed g x cs c :
  keeps_name g -> NoDup (map node_name cs) -> child x cs = Some c -> g c = None ->
  child x (rm_list g cs) = None.
Proof.
  intros Hg. induction cs as [|c0 cs IH]; simpl; [discriminate|].
  rewrite list.NoDup_cons. intros [Hn Hnd]. case_decide as Hx.
  - intros [= <-] ->. apply child_notin. intros Hin. apply Hn. subst x.
    exact (rm_list_names g cs _ Hg Hin).
  - intros Hc Hgc. destruct (g c0) as [c0'|] eqn:E; [|auto].
    simpl. rewrite decide_False; [auto|]. apply Hg in E. congruence.
Qed.
