(* ===== verification/SystemFolder.v ===== *)
(** * SystemFolder: [clean_system_folder] (src/cleanup.py, lines 81-110).

    Every entry of the folder is deleted: a file by [unlink] (its
    [st_size] is added to the total), a directory by
    [shutil.rmtree(ignore_errors=True)] (its [get_folder_size] is added).
    A file held open makes [unlink] raise; the [except] logs it and the
    loop goes on.  A dangling link is neither a file nor a directory: it
    is kept, and yet logged as deleted.  In a dry run each entry is only
    logged.  The function returns the sum of the sizes it added, not the
    difference of the two measurements it logs. *)

From S2P Require Import Prelude FileTree FolderSize FsOps Policy Sweep.

(** ** The code *)

(** The body of [for item in pathlib.Path(folder_path).glob("*"):]. *)
Definition system_item (dry_run : bool) (item : path) (deleted_size : Z) : CM Z :=
  try_except
    (if dry_run then emit (Info (MDryRun item));; mret deleted_size
     else
       let* f := is_file item in
       let* deleted_size :=
         (if f then
            let* st := stat item in
            unlink item;;
            mret (deleted_size + st_size st)
          else
            let* d := is_dir item in
            if d then
              let* size := folder_size (Some item) in
              rmtree item;;
              mret (deleted_size + size)
            else mret deleted_size) in
       emit (Info (MDeleted item));;
       mret deleted_size)
    (fun e => emit (Error (MDeleteFailed item e));; mret deleted_size).

(** [pathlib.Path(folder_path).glob("*")]: [Path(None)] raises [TypeError]. *)
Definition glob_opt (folder_path : option path) : CM (list path) :=
  match folder_path with Some p => glob p | None => raise TypeError end.

Definition clean_system_folder (folder_path : option path) (dry_run : bool) : CM Z :=
  emit (Info (MStart (TSystemFolder folder_path) folder_path));;
  let* size_before := folder_size folder_path in
  let* ex := os_path_exists folder_path in
  if negb ex then
    emit (Warning (MNotFound (TSystemFolder folder_path) folder_path));;
    mret 0
  else
    let* items := glob_opt folder_path in
    let* deleted_size := foldM (system_item dry_run) items 0 in
    let* size_after := folder_size folder_path in
    emit (Info (MFreed (TSystemFolder folder_path) (size_before - size_after)));;
    mret deleted_size.

(** ** Invariants of the whole function *)

Lemma clean_system_folder_dry_preserves r p :
  preserves (fs_is r) (clean_system_folder p true).
Proof.
  unfold clean_system_folder, system_item, glob_opt, folder_size, os_path_exists, glob.
  solve_preserves.
Qed.

Lemma clean_system_folder_quiet n p dry :
  preserves (tg_is n) (clean_system_folder p dry).
Proof.
  unfold clean_system_folder, system_item, glob_opt, folder_size, os_path_exists, glob,
    is_file, is_dir.
  solve_preserves.
Qed.

(** ** What one iteration does to an entry *)

(** The entry after the iteration ([None]: removed). *)
Definition system_effect (dry_run : bool) (clk : Z) (c : node) : option node :=
  if dry_run then Some c
  else match c with
       | File _ _ _ false => None
       | File _ _ _ true => Some c
       | Link _ _ => Some c
       | Dir _ _ _ => rm_node clk c
       end.

(** The bytes the iteration adds to [deleted_size]. *)
Definition system_bytes (dry_run : bool) (c : node) : Z :=
  if dry_run then 0
  else match c with
       | File _ s _ false => s
       | Dir _ _ _ => fst (walk c 0)
       | _ => 0
       end.

(** The records the iteration logs. *)
Definition system_events (dry_run : bool) (item : path) (c : node) : list event :=
  if dry_run then [Info (MDryRun item)]
  else match c with
       | File _ _ _ true => [Error (MDeleteFailed item (PermissionError item))]
       | _ => [Info (MDeleted item)]
       end.

Lemma system_effect_keeps_name dry clk : keeps_name (system_effect dry clk).
Proof.
  intros c c'. destruct dry; simpl; [congruence|].
  destruct c as [nm s t []|nm t|nm t cs]; try congruence.
  apply rm_node_keeps_name.
Qed.

Lemma system_item_spec dry w r c acc :
  lookup_in r (fs w) = Some c ->
  system_item dry r acc w =
    (Ok (acc + system_bytes dry c),
     mk_world (alter_at (clock w) (system_effect dry (clock w)) r (fs w))
              (clock w) (trace w ++ system_events dry r c)).
Proof.
  destruct w as [root clk tr]; simpl. intros Hl.
  unfold system_item.
  destruct dry; [|destruct c as [nm s t []|nm t|nm t cs]]; item_spec_tac Hl.
Qed.

(** ** The whole function *)

(** Up to its loop: on an existing directory, the function logs, runs
    the loop over the snapshot of its entries, logs again and returns
    the loop's total. *)
Lemma clean_system_folder_unfold p w nm t cs dry :
  lookup_in p (fs w) = Some (Dir nm t cs) ->
  clean_system_folder (Some p) dry w =
    let w1 := add_event (Info (MStart (TSystemFolder (Some p)) (Some p))) w in
    match foldM (system_item dry) (map (item_of p) cs) 0 w1 with
    | (Ok d, w2) =>
        (Ok d, add_event (Info (MFreed (TSystemFolder (Some p))
                 (get_folder_size (Some p) (fs w) - get_folder_size (Some p) (fs w2)))) w2)
    | (Raise e, w2) => (Raise e, w2)
    end.
Proof.
  intros Hl. destruct w as [root clk tr]; simpl in Hl.
  cbv [clean_system_folder bind emit modify mbind M_bind mret M_ret gets
       folder_size os_path_exists glob_opt glob add_event]; simpl.
  repeat (rewrite Hl; simpl). reflexivity.
Qed.

(** A real run on an existing directory, with the logged difference of
    the two measurements written out. *)
Lemma clean_system_folder_run p w nm t cs :
  lookup_in p (fs w) = Some (Dir nm t cs) -> NoDup (map node_name cs) ->
  let r := clean_system_folder (Some p) false w in
  let clk := clock w in
  let after := rm_list (system_effect false clk) cs in
  fst r = Ok (sumZ (system_bytes false) cs) /\
  lookup_in p (fs (snd r)) = Some (Dir nm (stamp t clk cs after) after) /\
  trace (snd r) =
    trace w ++ [Info (MStart (TSystemFolder (Some p)) (Some p))] ++
    concat (map (fun c => system_events false (item_of p c) c) cs) ++
    [Info (MFreed (TSystemFolder (Some p))
       (get_folder_size (Some p) (fs w) - get_folder_size (Some p) (fs (snd r))))] /\
  (forall q, disjoint q p -> lookup_in q (fs (snd r)) = lookup_in q (fs w)).
Proof.
  intros Hl Hnd. rewrite (clean_system_folder_unfold p w nm t cs false Hl).
  set (w1 := add_event _ w).
  pose proof (sweep_children (system_item false) (system_effect false)
              (system_bytes false) (system_events false)
              (system_effect_keeps_name false)
              (fun w p c acc => system_item_spec false w (item_of p c) c acc)
              p nm t cs 0 w1 Hl Hnd) as Hsw.
  cbv zeta. destruct (foldM (system_item false) (map (item_of p) cs) 0 w1) as [o w2].
  destruct Hsw as (Ho & Hclk & Htr & Hlp & Hfr).
  simpl in Ho, Hclk, Htr, Hlp, Hfr. subst o. simpl.
  split; [done|]. split; [exact Hlp|]. split.
  - rewrite Htr. simpl. by rewrite <- !app_assoc.
  - exact Hfr.
Qed.

(** [C3] Real run on an existing directory whose entries have distinct
    names: the function returns the sum, over the entries, of the size
    of each unlocked file and of the measured size of each subdirectory;
    afterwards the directory holds exactly what is left of its entries
    (unlocked files gone, locked files and dangling links kept,
    subdirectories reduced by [rmtree] to their locked files), stamped
    with the clock if it lost an entry; the log has, between the start
    and the summary records, one record per entry in listing order (an
    error for each locked file, "deleted" for every other entry); and no
    path outside the directory changes. *)
Theorem clean_system_folder_real p w nm t cs :
  lookup_in p (fs w) = Some (Dir nm t cs) -> NoDup (map node_name cs) ->
  let r := clean_system_folder (Some p) false w in
  let clk := clock w in
  let after := rm_list (system_effect false clk) cs in
  fst r = Ok (sumZ (system_bytes false) cs) /\
  lookup_in p (fs (snd r)) = Some (Dir nm (stamp t clk cs after) after) /\
  (exists freed,
     trace (snd r) =
       trace w ++ [Info (MStart (TSystemFolder (Some p)) (Some p))] ++
       concat (map (fun c => system_events false (item_of p c) c) cs) ++
       [Info (MFreed (TSystemFolder (Some p)) freed)]) /\
  (forall q, disjoint q p -> lookup_in q (fs (snd r)) = lookup_in q (fs w)).
Proof.
  intros Hl Hnd. destruct (clean_system_folder_run p w nm t cs Hl Hnd) as (Ho & Hlp & Htr & Hfr).
  split; [exact Ho|]. split; [exact Hlp|]. split; [eexists; exact Htr|exact Hfr].
Qed.

Lemma foldM_system_item_dry items acc w :
  foldM (system_item true) items acc w =
    (Ok acc, mk_world (fs w) (clock w) (trace w ++ map (fun i => Info (MDryRun i)) items)).
Proof.
  revert acc w; induction items as [|i items IH]; intros acc w; cbn [foldM].
  - cbv [mret M_ret]. by rewrite app_nil_r, <- world_eta.
  - rewrite run_bind.
    change (system_item true i acc w) with (@Ok exn Z acc, add_event (Info (MDryRun i)) w).
    simpl. rewrite IH. simpl. by rewrite <- app_assoc.
Qed.

(** [C4] Dry run: whatever the path (even [None]) and the filesystem,
    [clean_system_folder] leaves the filesystem as it was, and on a path
    that is not [None] it returns 0. *)
Theorem clean_system_folder_dry_run p w :
  fs (exec (clean_system_folder p true) w) = fs w /\
  (p <> None -> eval (clean_system_folder p true) w = Ok 0).
Proof.
  destruct w as [root clk tr]. unfold exec, eval.
  destruct p as [p|]; [|split; [reflexivity|done]].
  cbv [clean_system_folder bind emit modify mbind M_bind mret M_ret gets
       folder_size os_path_exists glob_opt glob add_event]; simpl.
  destruct (lookup_in p root) as [[]|]; simpl;
    rewrite ?foldM_system_item_dry; simpl; split; done.
Qed.

Lemma system_bytes_bounds c : wf c -> 0 <= system_bytes false c <= tree_size c.
Proof.
  intros Hwf. destruct c as [nm s t []|nm t|nm t cs]; simpl; try lia.
  - apply wf_File in Hwf. lia.
  - apply wf_File in Hwf. lia.
  - pose proof (walk_within (Dir nm t cs) 0 Hwf) as H. unfold within, dir_bytes in H.
    simpl in H. lia.
Qed.

(** [C19] Bounds: on a well-formed tree, the total a real run returns for
    an existing directory is between 0 and the bytes its files hold
    before the run. *)
Theorem clean_system_folder_bounds p w nm t cs :
  wf (fs w) -> lookup_in p (fs w) = Some (Dir nm t cs) ->
  exists d, eval (clean_system_folder (Some p) false) w = Ok d /\
            0 <= d <= bytes_at p (fs w).
Proof.
  intros Hwf Hl. pose proof (wf_lookup_in _ _ _ Hwf Hl) as Hd.
  pose proof Hd as [Hnd Hcs]%wf_Dir.
  destruct (clean_system_folder_run p w nm t cs Hl Hnd) as (Ho & _).
  exists (sumZ (system_bytes false) cs). split; [exact Ho|].
  unfold bytes_at. rewrite Hl. simpl. split.
  - apply sumZ_nonneg_wf; [|done]. intros c Hc. apply (system_bytes_bounds c Hc).
  - apply sumZ_le. eapply Forall_impl; [|exact Hcs]. intros c Hc.
    apply (system_bytes_bounds c Hc).
Qed.

(** A temporary folder with a file, a file held open, a dangling link, and
    a subdirectory holding one file held open. *)
Definition temp_locked : node :=
  Dir "Temp" 50
    [File "a.tmp" 10 40 false; File "in_use.log" 7 40 true; Link "stale.lnk" 40;
     Dir "sub" 40 [File "b.tmp" 5 40 false; File "locked.dat" 3 40 true]].
Definition world_locked : world := world0 (Dir "" 0 [Dir "C:" 0 [temp_locked]]) 1000.
Definition temp_path : path := ["C:"; "Temp"].

(** The same folder without its dangling link. *)
Definition temp_sub_locked : node :=
  Dir "Temp" 50
    [File "a.tmp" 10 40 false; File "in_use.log" 7 40 true;
     Dir "sub" 40 [File "b.tmp" 5 40 false; File "locked.dat" 3 40 true]].
Definition world_sub_locked : world := world0 (Dir "" 0 [Dir "C:" 0 [temp_sub_locked]]) 1000.

Example clean_system_folder_bounds_witness :
  wf (fs world_locked) /\
  lookup_in temp_path (fs world_locked) = Some temp_locked /\
  eval (clean_system_folder (Some temp_path) false) world_locked = Ok 18 /\
  0 <= 18 <= bytes_at temp_path (fs world_locked).
Proof.
  split; [reflexivity|]. split; [reflexivity|].
  destruct (clean_system_folder_bounds temp_path world_locked "Temp" 50
              (match temp_locked with Dir _ _ cs => cs | _ => [] end)
              eq_refl eq_refl) as (d & Hd & Hb).
  split; [vm_compute; reflexivity|]. vm_compute. split; discriminate.
Defined.

Example clean_system_folder_real_witness :
  lookup_in temp_path (fs world_locked) = Some temp_locked /\
  eval (clean_system_folder (Some temp_path) false) world_locked = Ok 18.
Proof.
  split; [reflexivity|].
  assert (Hnd : NoDup (map node_name
                 (match temp_locked with Dir _ _ cs => cs | _ => [] end))).
  { apply (bool_decide_unpack _). vm_compute. exact I. }
  destruct (clean_system_folder_real temp_path world_locked "Temp" 50
              (match temp_locked with Dir _ _ cs => cs | _ => [] end)
              eq_refl Hnd) as (Ho & _).
  unfold eval. rewrite Ho. vm_compute. reflexivity.
Defined.

(** ** Reported bytes and freed bytes *)

(** The bytes [rmtree] leaves of an entry that is a directory. *)
Definition left_behind (clk : Z) (c : node) : Z :=
  if node_is_dir c then match rm_node clk c with Some c' => tree_size c' | None => 0 end else 0.

(** The bytes of what an iteration leaves of an entry. *)
Definition kept_bytes (clk : Z) (c : node) : Z :=
  match system_effect false clk c with Some c' => tree_size c' | None => 0 end.

Lemma sumZ_lin {A} (f g h : A -> Z) l :
  sumZ (fun x => f x - g x + h x) l = sumZ f l - sumZ g l + sumZ h l.
Proof. induction l; simpl; lia. Qed.

Lemma system_bytes_split clk c :
  link_free c = true ->
  system_bytes false c = tree_size c - kept_bytes clk c + left_behind clk c.
Proof.
  intros Hlf. unfold kept_bytes, left_behind.
  destruct c as [nm s t []|nm t|nm t cs]; [simpl; lia|simpl; lia|discriminate|].
  change (system_bytes false (Dir nm t cs)) with (fst (walk (Dir nm t cs) 0)).
  rewrite (walk_exact (Dir nm t cs) 0 Hlf). unfold dir_bytes. cbn [system_effect node_is_dir fst].
  destruct (rm_node clk (Dir nm t cs)); lia.
Qed.

Lemma system_effect_link_free clk : forall c c',
  link_free c = true -> system_effect false clk c = Some c' -> link_free c' = true.
Proof.
  intros [nm s t []|nm t|nm t cs] c' Hlf H; simpl in H; try discriminate;
    [by injection H as <-|exact (rm_node_link_free clk _ _ Hlf H)].
Qed.

(** [get_folder_size] of a directory with no dangling link is the bytes below it. *)
Lemma get_folder_size_dir p root nm t cs :
  lookup_in p root = Some (Dir nm t cs) -> forallb link_free cs = true ->
  get_folder_size (Some p) root = sumZ tree_size cs.
Proof.
  intros Hl Hlf. unfold get_folder_size. rewrite Hl.
  rewrite (walk_exact (Dir nm t cs) 0 Hlf). unfold dir_bytes. simpl. lia.
Qed.

(** [C20] The returned total is not the space freed: on a directory with
    no dangling link and distinct names, a real run returns the bytes
    freed (the difference of the bytes below the folder before and after,
    which is also what the function's own summary record logs) plus the
    bytes [rmtree(ignore_errors=True)] could not remove from the
    subdirectories, which were measured and counted anyway (the spec
    says bytes_freed = max(0, size_before - size_after)). *)
Theorem clean_system_folder_overreports p w nm t cs :
  lookup_in p (fs w) = Some (Dir nm t cs) -> NoDup (map node_name cs) ->
  forallb link_free cs = true ->
  let w' := exec (clean_system_folder (Some p) false) w in
  let freed := bytes_at p (fs w) - bytes_at p (fs w') in
  eval (clean_system_folder (Some p) false) w = Ok (freed + sumZ (left_behind (clock w)) cs) /\
  Info (MFreed (TSystemFolder (Some p)) freed) ∈ trace w'.
Proof.
  intros Hl Hnd Hlf. destruct (clean_system_folder_run p w nm t cs Hl Hnd) as (Ho & Hlp & Htr & _).
  set (after := rm_list (system_effect false (clock w)) cs) in *.
  assert (Hlf' : forallb link_free after = true).
  { apply forallb_rm_list; [|done]. apply Forall_forall. intros c _ c'.
    apply system_effect_link_free. }
  assert (Hfreed : bytes_at p (fs w) - bytes_at p (fs (exec (clean_system_folder (Some p) false) w)) =
                   get_folder_size (Some p) (fs w) -
                   get_folder_size (Some p) (fs (snd (clean_system_folder (Some p) false w)))).
  { unfold bytes_at, exec. rewrite Hl, Hlp. cbn [tree_size].
    by rewrite (get_folder_size_dir p _ nm t cs Hl Hlf), (get_folder_size_dir p _ _ _ after Hlp Hlf'). }
  cbv zeta. rewrite Hfreed. split.
  - unfold eval. rewrite Ho, (get_folder_size_dir p _ nm t cs Hl Hlf),
      (get_folder_size_dir p _ _ _ after Hlp Hlf'). f_equal.
    unfold after. rewrite sumZ_rm_list.
    rewrite (sumZ_ext _ (fun c => tree_size c - kept_bytes (clock w) c + left_behind (clock w) c)).
    + rewrite sumZ_lin. unfold kept_bytes. lia.
    + apply Forall_forall. intros c Hc. apply system_bytes_split.
      exact (proj1 (forallb_forall _ _) Hlf c Hc).
  - unfold exec. rewrite Htr. rewrite !elem_of_app. right. right. right. by left.
Qed.

Example clean_system_folder_overreports_witness :
  lookup_in temp_path (fs world_sub_locked) = Some temp_sub_locked /\
  eval (clean_system_folder (Some temp_path) false) world_sub_locked = Ok 18 /\
  bytes_at temp_path (fs world_sub_locked) -
    bytes_at temp_path (fs (exec (clean_system_folder (Some temp_path) false) world_sub_locked)) = 15.
Proof.
  split; [reflexivity|].
  assert (Hnd : NoDup (map node_name
                 (match temp_sub_locked with Dir _ _ cs => cs | _ => [] end))).
  { apply (bool_decide_unpack _). vm_compute. exact I. }
  destruct (clean_system_folder_overreports temp_path world_sub_locked "Temp" 50
              (match temp_sub_locked with Dir _ _ cs => cs | _ => [] end)
              eq_refl Hnd eq_refl) as (Ho & _).
  split; [rewrite Ho; vm_compute; reflexivity|vm_compute; reflexivity].
Defined.

(** The design's classifier with the generic-folder rules (no exclusion,
    no allow-list, no age cutoff) prescribes what [system_effect] does. *)
Lemma system_effect_classify clk c :
  is_link c = false ->
  system_effect false clk c = apply_decision clk (classify generic_rules c) c.
Proof. destruct c as [nm s t []|nm t|nm t cs]; done. Qed.

(** [C13] Refinement of the design's policy: in a real run, one iteration
    of the loop body on an entry that is not a dangling link leaves the
    filesystem as carrying out the design's classifier decision on that
    entry, with the generic-folder rules: remove a file (unless held
    open), remove a directory's subtree with [rmtree]. *)
Theorem system_item_refines w r c acc :
  lookup_in r (fs w) = Some c -> is_link c = false ->
  fs (exec (system_item false r acc) w) =
    alter_at (clock w) (fun n => apply_decision (clock w) (classify generic_rules n) n) r (fs w).
Proof.
  intros Hl Hk. unfold exec. rewrite (system_item_spec false w r c acc Hl). simpl.
  apply (alter_at_ext_at _ _ _ _ _ _ Hl). by apply system_effect_classify.
Qed.

Example system_item_refines_witness :
  lookup_in (temp_path ++ ["a.tmp"]) (fs world_locked) = Some (File "a.tmp" 10 40 false) /\
  is_link (File "a.tmp" 10 40 false) = false /\
  fs (exec (system_item false (temp_path ++ ["a.tmp"]) 0) world_locked) =
    Dir "" 0 [Dir "C:" 0 [Dir "Temp" 1000
      [File "in_use.log" 7 40 true; Link "stale.lnk" 40;
       Dir "sub" 40 [File "b.tmp" 5 40 false; File "locked.dat" 3 40 true]]]].
Proof.
  split; [reflexivity|]. split; [reflexivity|].
  rewrite (system_item_refines world_locked (temp_path ++ ["a.tmp"]) (File "a.tmp" 10 40 false) 0
             eq_refl eq_refl).
  vm_compute. reflexivity.
Defined.

(** The scenario of [test_system_folder] (src/tests.py): a folder holding
    [test.txt] (4 bytes) is emptied and 4 is returned. *)
Example test_system_folder_scenario :
  let w := world0 (Dir "" 0 [Dir "tmp" 0 [File "test.txt" 4 0 false]]) 1000 in
  eval (clean_system_folder (Some ["tmp"]) false) w = Ok 4 /\
  fs (exec (clean_system_folder (Some ["tmp"]) false) w) = Dir "" 0 [Dir "tmp" 1000 []].
Proof. vm_compute. split; reflexivity. Qed.
