(* ===== verification/BrowserCache.v ===== *)
(** * BrowserCache: [clean_yandex_browser_cache] (src/cleanup.py, lines 45-79).

    The profile directory (by default %LOCALAPPDATA%\Yandex\YandexBrowser\
    User Data\Default) is swept one level deep.  Entries named [Cookies]
    or [Cookies-journal] are skipped before the [try].  Every other file
    is unlinked; a directory is removed with [rmtree] only when its name
    is [Cache], [Cache2] or [Code Cache]; any other directory is kept,
    but the "deleted" record is logged for it all the same.  An unset
    LOCALAPPDATA makes [os.path.join] raise [TypeError] before anything
    else happens. *)

From S2P Require Import Prelude FileTree FolderSize FsOps Policy Sweep.

(** ** The code *)

Definition exclude : list string := ["Cookies"; "Cookies-journal"].
Definition cache_dirs : list string := ["Cache"; "Cache2"; "Code Cache"].

(** [item.name]: the last component of a path. *)
Fixpoint path_name (p : path) : string :=
  match p with
  | [] => ""
  | [x] => x
  | _ :: r => path_name r
  end.

Definition yandex_item (dry_run : bool) (item : path) (deleted_size : Z) : CM Z :=
  if decide (path_name item ∈ exclude) then mret deleted_size
  else
    try_except
      (if dry_run then emit (Info (MDryRun item));; mret deleted_size
       else
         let* f := is_file item in
         let* deleted_size :=
           (if f then
              let* st := stat item in
              unlink item;;
              mret (deleted_size + st_size st)
            else
              let* d := is_dir item in
              if d && bool_decide (path_name item ∈ cache_dirs) then
                let* size := folder_size (Some item) in
                rmtree item;;
                mret (deleted_size + size)
              else mret deleted_size) in
         emit (Info (MDeleted item));;
         mret deleted_size)
      (fun e => emit (Error (MDeleteFailed item e));; mret deleted_size).

(** The default profile path, from LOCALAPPDATA. *)
Definition default_cache_path (localappdata : option path) : CM path :=
  match localappdata with
  | Some l => mret (l ++ ["Yandex"; "YandexBrowser"; "User Data"; "Default"])
  | None => raise TypeError
  end.

Definition clean_yandex_browser_cache (dry_run : bool) (cache_path : option path)
    (localappdata : option path) : CM Z :=
  let* cache_path :=
    match cache_path with Some p => mret p | None => default_cache_path localappdata end in
  emit (Info (MStart TBrowserCache (Some cache_path)));;
  let* size_before := folder_size (Some cache_path) in
  let* ex := os_path_exists (Some cache_path) in
  if negb ex then
    emit (Warning (MNotFound TBrowserCache (Some cache_path)));;
    mret 0
  else
    let* items := glob cache_path in
    let* deleted_size := foldM (yandex_item dry_run) items 0 in
    let* size_after := folder_size (Some cache_path) in
    emit (Info (MFreed TBrowserCache (size_before - size_after)));;
    mret deleted_size.

(** ** Invariants of the whole function *)

(** A dry run leaves the filesystem as it is, whether it returns or raises. *)
Lemma clean_yandex_dry_preserves r cp la :
  preserves (fs_is r) (clean_yandex_browser_cache true cp la).
Proof.
  unfold clean_yandex_browser_cache, default_cache_path, yandex_item,
    folder_size, os_path_exists, glob, is_file, is_dir.
  solve_preserves.
Qed.

(** No run sends a Telegram message. *)
Lemma clean_yandex_quiet n dry cp la :
  preserves (tg_is n) (clean_yandex_browser_cache dry cp la).
Proof.
  unfold clean_yandex_browser_cache, default_cache_path, yandex_item,
    folder_size, os_path_exists, glob, is_file, is_dir.
  solve_preserves.
Qed.

(** ** What one iteration does to an entry *)

Definition browser_effect (dry_run : bool) (clk : Z) (c : node) : option node :=
  if decide (node_name c ∈ exclude) then Some c
  else if dry_run then Some c
  else match c with
       | File _ _ _ false => None
       | Dir _ _ _ => if bool_decide (node_name c ∈ cache_dirs) then rm_node clk c else Some c
       | _ => Some c
       end.

Definition browser_bytes (dry_run : bool) (c : node) : Z :=
  if decide (node_name c ∈ exclude) then 0
  else if dry_run then 0
  else match c with
       | File _ s _ false => s
       | Dir _ _ _ => if bool_decide (node_name c ∈ cache_dirs) then fst (walk c 0) else 0
       | _ => 0
       end.

Definition browser_events (dry_run : bool) (item : path) (c : node) : list event :=
  if decide (node_name c ∈ exclude) then []
  else if dry_run then [Info (MDryRun item)]
  else match c with
       | File _ _ _ true => [Error (MDeleteFailed item (PermissionError item))]
       | _ => [Info (MDeleted item)]
       end.

Lemma path_name_item p c : path_name (item_of p c) = node_name c.
Proof.
  unfold item_of. induction p as [|x p IH]; [done|].
  destruct p; simpl in *; [done|]. exact IH.
Qed.

Lemma browser_effect_keeps_name dry clk : keeps_name (browser_effect dry clk).
Proof.
  intros c c'. unfold browser_effect.
  case_decide; [congruence|]. destruct dry; [congruence|].
  destruct c as [nm s t []|nm t|nm t cs]; try congruence.
  case_bool_decide; [apply rm_node_keeps_name|congruence].
Qed.

(** Closes the goal [browser_effect ... c = ...] for an entry whose name
    is not excluded ([Hex]). *)
Local Ltac browser_fin Hex :=
  unfold browser_effect; rewrite decide_False by exact Hex;
  simpl; try case_bool_decide; done.

Lemma yandex_item_spec dry w p c acc :
  lookup_in (item_of p c) (fs w) = Some c ->
  yandex_item dry (item_of p c) acc w =
    (Ok (acc + browser_bytes dry c),
     mk_world (alter_at (clock w) (browser_effect dry (clock w)) (item_of p c) (fs w))
              (clock w) (trace w ++ browser_events dry (item_of p c) c)).
Proof.
  destruct w as [root clk tr]; simpl. intros Hl.
  unfold yandex_item, browser_bytes, browser_events.
  rewrite path_name_item. case_decide as Hex.
  - cbv [mret M_ret]. f_equal; [f_equal; lia|]. rewrite app_nil_r. f_equal.
    symmetry. apply (alter_at_id _ _ _ _ _ Hl). unfold browser_effect.
    by rewrite decide_True.
  - destruct dry; [|destruct c as [nm s t []|nm t|nm t cs]];
      [item_spec_tac_with Hl ltac:(browser_fin Hex)..|].
    simpl. case_bool_decide; item_spec_tac_with Hl ltac:(browser_fin Hex).
Qed.

(** ** The whole function *)

Lemma clean_yandex_unfold dry p la w nm t cs :
  lookup_in p (fs w) = Some (Dir nm t cs) ->
  clean_yandex_browser_cache dry (Some p) la w =
    let w1 := add_event (Info (MStart TBrowserCache (Some p))) w in
    match foldM (yandex_item dry) (map (item_of p) cs) 0 w1 with
    | (Ok d, w2) =>
        (Ok d, add_event (Info (MFreed TBrowserCache
                 (get_folder_size (Some p) (fs w) - get_folder_size (Some p) (fs w2)))) w2)
    | (Raise e, w2) => (Raise e, w2)
    end.
Proof.
  intros Hl. destruct w as [root clk tr]; simpl in Hl.
  cbv [clean_yandex_browser_cache bind emit modify mbind M_bind mret M_ret gets
       folder_size os_path_exists glob add_event]; simpl.
  repeat (rewrite Hl; simpl). reflexivity.
Qed.

(** On a path that is not a directory nothing is deleted. *)
Lemma clean_yandex_not_dir dry p la w :
  (forall nm t cs, lookup_in p (fs w) <> Some (Dir nm t cs)) ->
  fs (exec (clean_yandex_browser_cache dry (Some p) la) w) = fs w /\
  eval (clean_yandex_browser_cache dry (Some p) la) w = Ok 0.
Proof.
  intros Hnd. destruct w as [root clk tr]; simpl in Hnd. unfold exec, eval.
  cbv [clean_yandex_browser_cache bind emit modify mbind M_bind mret M_ret gets
       folder_size os_path_exists glob add_event]; simpl.
  destruct (lookup_in p root) as [[]|] eqn:Hlk; simpl;
    repeat (rewrite Hlk; simpl); try (split; reflexivity).
  exfalso. exact (Hnd _ _ _ eq_refl).
Qed.

(** Any run (dry or real) on an existing profile directory. *)
Lemma clean_yandex_run dry p la w nm t cs :
  lookup_in p (fs w) = Some (Dir nm t cs) -> NoDup (map node_name cs) ->
  let r := clean_yandex_browser_cache dry (Some p) la w in
  let clk := clock w in
  let after := rm_list (browser_effect dry clk) cs in
  fst r = Ok (sumZ (browser_bytes dry) cs) /\
  lookup_in p (fs (snd r)) = Some (Dir nm (stamp t clk cs after) after) /\
  (exists freed,
     trace (snd r) =
       trace w ++ [Info (MStart TBrowserCache (Some p))] ++
       concat (map (fun c => browser_events dry (item_of p c) c) cs) ++
       [Info (MFreed TBrowserCache freed)]) /\
  (forall q, disjoint q p -> lookup_in q (fs (snd r)) = lookup_in q (fs w)).
Proof.
  intros Hl Hnd. rewrite (clean_yandex_unfold dry p la w nm t cs Hl).
  set (w1 := add_event _ w).
  pose proof (sweep_children (yandex_item dry) (browser_effect dry)
              (browser_bytes dry) (browser_events dry)
              (browser_effect_keeps_name dry) (yandex_item_spec dry)
              p nm t cs 0 w1 Hl Hnd) as Hsw.
  cbv zeta. destruct (foldM (yandex_item dry) (map (item_of p) cs) 0 w1) as [o w2].
  destruct Hsw as (Ho & Hclk & Htr & Hlp & Hfr).
  simpl in Ho, Hclk, Htr, Hlp, Hfr. subst o. simpl.
  split; [done|]. split; [exact Hlp|]. split.
  - eexists. rewrite Htr. simpl. by rewrite <- !app_assoc.
  - exact Hfr.
Qed.

(** ** Properties *)

(** [C1] Safety of the session files: whatever the run (dry or real) and
    the filesystem (well-formed: names unique in a directory), every path
    through an entry named [Cookies] or [Cookies-journal] of the profile
    directory reaches after the run exactly what it reached before. *)
Theorem browser_cache_keeps_excluded dry (p : path) la w x (q : path) :
  wf (fs w) -> x ∈ exclude ->
  lookup_in (p ++ x :: q) (fs (exec (clean_yandex_browser_cache dry (Some p) la) w)) =
  lookup_in (p ++ x :: q) (fs w).
Proof.
  intros Hwf Hx.
  destruct (lookup_in p (fs w)) as [[| |nm t cs]|] eqn:Hl;
    try (f_equal; apply (proj1 (clean_yandex_not_dir dry p la w
                                   ltac:(intros ???; congruence)))).
  unfold exec. pose proof (wf_lookup_in _ _ _ Hwf Hl) as [Hnd _]%wf_Dir.
  destruct (clean_yandex_run dry p la w nm t cs Hl Hnd) as (_ & Hlp & _).
  rewrite !lookup_in_app, Hlp, Hl. simpl.
  destruct (child x cs) as [c|] eqn:Hc.
  - apply child_In in Hc as Hc'. destruct Hc' as [_ Hname].
    rewrite (child_rm_list_keep _ x cs c (browser_effect_keeps_name dry (clock w)) Hc);
      [done|].
    unfold browser_effect. rewrite decide_True by congruence. done.
  - assert (child x (rm_list (browser_effect dry (clock w)) cs) = None) as ->; [|done].
    clear -Hc. induction cs as [|c cs IH]; simpl in *; [done|].
    case_decide; [discriminate|].
    destruct (browser_effect dry (clock w) c) as [c'|] eqn:E; simpl; [|auto].
    apply browser_effect_keeps_name in E. rewrite decide_False by congruence. auto.
Qed.

(** A profile with the files and directories a Chromium-based browser
    keeps there. *)
Definition profile : node :=
  Dir "Default" 10
    [File "Cookies" 30 10 false; File "Bookmarks" 4 10 false;
     File "Preferences" 6 10 false; Dir "Cache" 10 [File "data_0" 20 10 false];
     Dir "Extensions" 10 [File "manifest.json" 2 10 false]].
Definition profile_world : world :=
  world0 (Dir "" 0 [Dir "Users" 0 [profile]]) 1000.
Definition profile_path : path := ["Users"; "Default"].

Example browser_cache_keeps_excluded_witness :
  wf (fs profile_world) /\ "Cookies" ∈ exclude /\
  lookup_in (profile_path ++ ["Cookies"])
    (fs (exec (clean_yandex_browser_cache false (Some profile_path) None) profile_world)) =
  Some (File "Cookies" 30 10 false).
Proof.
  split; [reflexivity|]. split; [left|].
  rewrite (browser_cache_keeps_excluded false profile_path None profile_world "Cookies" []);
    [reflexivity|reflexivity|left].
Defined.

(** The design's classifier with the browser-cache rules (exclusions
    [Cookies], [Cookies-journal]; allow-list [Cache], [Cache2],
    [Code Cache]) prescribes what [browser_effect] does. *)
Lemma browser_effect_classify clk c :
  is_link c = false ->
  browser_effect false clk c = apply_decision clk (classify browser_rules c) c.
Proof.
  intros Hlink. unfold browser_effect, classify, exclude, cache_dirs. simpl.
  case_decide; [done|].
  destruct c as [nm s t []|nm t|nm t cs]; simpl in *; try done.
  case_bool_decide; case_decide; tauto.
Qed.

(** [C12] Refinement of the design's policy: in a real run, one iteration
    of the loop body on an entry of the profile that is not a dangling
    link leaves the filesystem as carrying out the design's classifier
    decision on that entry, with the browser-cache rules: an excluded
    entry is kept, an allow-listed directory's subtree is removed, any
    other directory is kept, a file is removed unless held open. *)
Theorem yandex_item_refines w p c acc :
  lookup_in (item_of p c) (fs w) = Some c -> is_link c = false ->
  fs (exec (yandex_item false (item_of p c) acc) w) =
    alter_at (clock w) (fun n => apply_decision (clock w) (classify browser_rules n) n)
      (item_of p c) (fs w).
Proof.
  intros Hl Hk. unfold exec. rewrite (yandex_item_spec false w p c acc Hl). simpl.
  apply (alter_at_ext_at _ _ _ _ _ _ Hl). by apply browser_effect_classify.
Qed.

Example yandex_item_refines_witness :
  lookup_in (item_of profile_path (File "Cookies" 30 10 false)) (fs profile_world) =
    Some (File "Cookies" 30 10 false) /\
  is_link (File "Cookies" 30 10 false) = false /\
  fs (exec (yandex_item false (item_of profile_path (File "Cookies" 30 10 false)) 0) profile_world) =
    fs profile_world.
Proof.
  split; [reflexivity|]. split; [reflexivity|].
  rewrite (yandex_item_refines profile_world profile_path (File "Cookies" 30 10 false) 0
             eq_refl eq_refl).
  vm_compute. reflexivity.
Defined.

(** [C15] The profile's own files go: on a well-formed tree, a real run
    on an existing profile directory removes every top-level file that
    is not held open and is not named [Cookies] or [Cookies-journal]
    (Bookmarks, Preferences, History...), though the design says the
    cleanup must protect them; and every top-level directory outside the
    cache allow-list is kept, yet logged as deleted. *)
Theorem browser_cache_deletes_profile_files p la w nm t cs :
  wf (fs w) -> lookup_in p (fs w) = Some (Dir nm t cs) ->
  let w' := exec (clean_yandex_browser_cache false (Some p) la) w in
  (forall x s tf, child x cs = Some (File x s tf false) -> x ∉ exclude ->
     lookup_in (p ++ [x]) (fs w') = None) /\
  (forall d td cd, child d cs = Some (Dir d td cd) -> d ∉ exclude -> d ∉ cache_dirs ->
     lookup_in (p ++ [d]) (fs w') = Some (Dir d td cd) /\ Info (MDeleted (p ++ [d])) ∈ trace w').
Proof.
  intros Hwf Hl. pose proof (wf_lookup_in _ _ _ Hwf Hl) as [Hnd _]%wf_Dir.
  destruct (clean_yandex_run false p la w nm t cs Hl Hnd) as (_ & Hlp & (freed & Htr) & _).
  cbv zeta. unfold exec. split.
  - intros x s tf Hc Hx. rewrite lookup_in_app, Hlp. simpl.
    rewrite (child_rm_list_removed _ x cs _ (browser_effect_keeps_name false (clock w)) Hnd Hc);
      [done|].
    unfold browser_effect. by rewrite decide_False.
  - intros d td cd Hc Hd Hdc. split.
    + rewrite lookup_in_app, Hlp. simpl.
      rewrite (child_rm_list_keep _ d cs _ (browser_effect_keeps_name false (clock w)) Hc); [done|].
      unfold browser_effect. rewrite decide_False by done. simpl.
      by rewrite bool_decide_false.
    + rewrite Htr. rewrite !elem_of_app. right. right. left.
      apply list_elem_of_In, in_concat. exists [Info (MDeleted (p ++ [d]))]. split; [|by left].
      apply in_map_iff. exists (Dir d td cd). split; [|by apply (child_In d cs)].
      unfold browser_events. by rewrite decide_False.
Qed.

Example browser_cache_deletes_profile_files_witness :
  wf (fs profile_world) /\
  lookup_in profile_path (fs profile_world) = Some profile /\
  lookup_in (profile_path ++ ["Bookmarks"])
    (fs (exec (clean_yandex_browser_cache false (Some profile_path) None) profile_world)) = None.
Proof.
  split; [reflexivity|]. split; [reflexivity|].
  refine (proj1 (browser_cache_deletes_profile_files profile_path None profile_world "Default" 10
            (match profile with Dir _ _ cs => cs | _ => [] end) eq_refl eq_refl) "Bookmarks" 4 10
            eq_refl _).
  apply (bool_decide_unpack _). vm_compute. exact I.
Defined.

(** The scenario of [test_yandex_browser_cache] (src/tests.py): a profile
    holding [cache.txt] and [Cookies]; a dry run keeps both, a real run
    deletes [cache.txt] and keeps [Cookies]. *)
Definition test_profile : node :=
  Dir "Default" 0 [File "cache.txt" 4 0 false; File "Cookies" 7 0 false].
Definition test_profile_world : world := world0 (Dir "" 0 [Dir "tmp" 0 [test_profile]]) 1000.

Example test_yandex_browser_cache_scenario :
  fs (exec (clean_yandex_browser_cache true (Some ["tmp"; "Default"]) None) test_profile_world)
    = fs test_profile_world /\
  lookup_in ["tmp"; "Default"]
    (fs (exec (clean_yandex_browser_cache false (Some ["tmp"; "Default"]) None) test_profile_world))
    = Some (Dir "Default" 1000 [File "Cookies" 7 0 false]).
Proof. vm_compute. split; reflexivity. Qed.
