(* ===== verification/RecycleBin.v ===== *)
(** * RecycleBin: [clean_recycle_bin] (src/cleanup.py, lines 147-166).

    The bin C:\$Recycle.Bin is not swept entry by entry: the shell command
    [rd /s /q] removes the whole tree at once, skipping what it cannot
    delete, and the directory itself when it ends up empty.  The command's
    failure is not checked ([subprocess.run] without [check=True]), so no
    error is ever recorded.  The function returns the difference of the
    two measurements around the command; the second one is 0 when the bin
    is gone. *)

From S2P Require Import Prelude FileTree FolderSize FsOps.

Definition recycle_bin : path := ["C:"; "$Recycle.Bin"].

(** [subprocess.run(["rd", "/s", "/q", p], shell=True)]: removes what it
    can of the tree at [p], exactly as [rmtree] with ignored errors. *)
Definition rd_s_q (p : path) : CM unit := rmtree p.

Definition clean_recycle_bin (dry_run : bool) : CM Z :=
  emit (Info (MStart TRecycleBin (Some recycle_bin)));;
  let deleted_size := 0 in
  try_except
    (if dry_run then
       emit (Info MBinDryRun);;
       mret 0
     else
       let* ex := os_path_exists (Some recycle_bin) in
       if negb ex then
         emit (Warning (MNotFound TRecycleBin (Some recycle_bin)));;
         mret 0
       else
         let* size_before := folder_size (Some recycle_bin) in
         rd_s_q recycle_bin;;
         let* ex' := os_path_exists (Some recycle_bin) in
         let* size_after := (if ex' then folder_size (Some recycle_bin) else mret 0) in
         let deleted_size := size_before - size_after in
         emit (Info (MFreed TRecycleBin deleted_size));;
         mret deleted_size)
    (fun e => emit (Error (MBinFailed e));; mret deleted_size).

Lemma clean_recycle_bin_dry_preserves r :
  preserves (fs_is r) (clean_recycle_bin true).
Proof. unfold clean_recycle_bin. solve_preserves. Qed.

Lemma clean_recycle_bin_quiet n dry :
  preserves (tg_is n) (clean_recycle_bin dry).
Proof.
  unfold clean_recycle_bin, rd_s_q, folder_size, os_path_exists. solve_preserves.
Qed.

(** [C24] A real run on an existing bin returns the measured size before
    [rd /s /q] minus the measured size after it (0 if the bin is gone),
    and leaves in the filesystem what [rmtree] leaves of the bin. *)
Theorem clean_recycle_bin_real w nm t cs :
  lookup_in recycle_bin (fs w) = Some (Dir nm t cs) ->
  let root' := alter_at (clock w) (rm_node (clock w)) recycle_bin (fs w) in
  eval (clean_recycle_bin false) w =
    Ok (get_folder_size (Some recycle_bin) (fs w) -
        match lookup_in recycle_bin root' with
        | Some (File _ _ _ _) | Some (Dir _ _ _) => get_folder_size (Some recycle_bin) root'
        | _ => 0
        end) /\
  fs (exec (clean_recycle_bin false) w) = root'.
Proof.
  intros Hl. destruct w as [root clk tr]. cbn [fs clock trace] in *. unfold eval, exec.
  cbv [clean_recycle_bin rd_s_q rmtree alter_fs try_except bind emit modify mbind M_bind
       mret M_ret gets folder_size os_path_exists add_event set_fs].
  set (rb := recycle_bin) in *. clearbody rb. simpl.
  repeat (rewrite Hl; simpl).
  destruct (lookup_in rb (alter_at clk (rm_node clk) rb root))
    as [[]|] eqn:Ha; simpl; rewrite ?Ha; simpl; split; reflexivity.
Qed.

(** [C25] Dry run: the bin is left as it is and 0 is returned. *)
Theorem clean_recycle_bin_dry_run w :
  fs (exec (clean_recycle_bin true) w) = fs w /\ eval (clean_recycle_bin true) w = Ok 0.
Proof. split; reflexivity. Qed.

Lemma rm_list_open clk cs :
  Forall (fun c => exists x s tc, c = File x s tc true) cs -> rm_list (rm_node clk) cs = cs.
Proof. induction 1 as [|c cs (x & s & tc & ->) _ IH]; simpl; [done|]. by rewrite IH. Qed.

(** [C26] The recycle bin can report a negative number of freed bytes:
    when the first entry of the bin is a dangling link and the others are
    files another process holds open, the measurement before [rd /s /q]
    stops at the link (0), the command removes the link but not the open
    files, and the measurement after it counts them: the function returns
    minus their size (the design requires bytes freed never to be
    negative). *)
Theorem clean_recycle_bin_negative w nm t l tl cs :
  lookup_in recycle_bin (fs w) = Some (Dir nm t (Link l tl :: cs)) ->
  Forall (fun c => exists x s tc, c = File x s tc true) cs -> cs <> [] ->
  eval (clean_recycle_bin false) w = Ok (- sumZ file_bytes cs).
Proof.
  intros Hl Hcs Hne. destruct w as [root clk tr]. cbn [fs clock trace] in *. unfold eval.
  assert (Hrm : rm_node clk (Dir nm t (Link l tl :: cs)) = Some (Dir nm clk cs)).
  { simpl. rewrite (rm_list_open clk cs Hcs). destruct cs; [done|].
    simpl. by rewrite (proj2 (Nat.eqb_neq _ _)) by lia. }
  pose proof (lookup_alter_at_self clk (rm_node clk) recycle_bin root _ _
                (rm_node_keeps_name clk) Hl Hrm) as Ha.
  assert (Hlf : forallb link_free cs = true).
  { apply forallb_forall. intros c Hc.
    rewrite Forall_forall in Hcs. by destruct (Hcs c Hc) as (x & s & tc & ->). }
  assert (Hsz : sumZ tree_size cs = sumZ file_bytes cs).
  { apply sumZ_ext. eapply Forall_impl; [|exact Hcs]. by intros c (x & s & tc & ->). }
  cbv [clean_recycle_bin rd_s_q rmtree alter_fs try_except bind emit modify mbind M_bind
       mret M_ret gets folder_size os_path_exists add_event set_fs get_folder_size].
  set (rb := recycle_bin) in *. clearbody rb. simpl.
  repeat (rewrite Hl; simpl). cbv beta iota zeta delta [fs clock trace]. rewrite Ha.
  assert (Hw : fst (walk (Dir nm clk cs) 0) = sumZ file_bytes cs).
  { rewrite (walk_exact (Dir nm clk cs) 0 Hlf). unfold dir_bytes. simpl. lia. }
  simpl. rewrite ?Ha. cbn [fst]. by rewrite Hw.
Qed.

(** A bin whose first entry is a dangling link and which holds a file
    another process keeps open. *)
Definition bin_world : world :=
  world0 (Dir "" 0 [Dir "C:" 0 [Dir "$Recycle.Bin" 5
    [Link "desktop.lnk" 5; File "$R0001.dat" 100 5 true]]]) 1000.

Example clean_recycle_bin_negative_witness :
  eval (clean_recycle_bin false) bin_world = Ok (-100).
Proof.
  refine (clean_recycle_bin_negative bin_world "$Recycle.Bin" 5 "desktop.lnk" 5
            [File "$R0001.dat" 100 5 true] eq_refl _ _); [|discriminate].
  repeat constructor. by do 3 eexists.
Defined.

Example clean_recycle_bin_real_witness :
  lookup_in recycle_bin (fs bin_world) =
    Some (Dir "$Recycle.Bin" 5 [Link "desktop.lnk" 5; File "$R0001.dat" 100 5 true]) /\
  fs (exec (clean_recycle_bin false) bin_world) =
    Dir "" 0 [Dir "C:" 0 [Dir "$Recycle.Bin" 1000 [File "$R0001.dat" 100 5 true]]].
Proof.
  split; [reflexivity|].
  rewrite (proj2 (clean_recycle_bin_real bin_world "$Recycle.Bin" 5
                    [Link "desktop.lnk" 5; File "$R0001.dat" 100 5 true] eq_refl)).
  vm_compute. reflexivity.
Defined.
