(* ===== verification/OldLogs.v ===== *)
(** * OldLogs: [clean_old_logs] (src/cleanup.py, lines 112-145).

    Every entry reached by [Path(logs_path).rglob("*")] whose
    modification time is not after [now - days] is deleted, a directory
    with [rmtree] (its whole subtree, whatever the times inside it).
    [rglob] is lazy, so the walk sees the deletions already made.  In
    Python 3.12, [rglob("*")] lists the entries of [logs_path]; then
    [Path.walk] scans [logs_path] for its subdirectories (after its
    entries were handled, so a deleted directory is not entered), lists
    the entries of each of them, and descends into each of them in turn,
    depth first.  [visit] follows that order; its [fuel] bounds the depth
    of the descent and [clean_old_logs] gives it the height of the tree,
    which the theorems show is enough.

    The clock stands for [datetime.now()]: times are whole seconds, and
    [fromtimestamp] and [now] use the same local time, so the comparison
    [mtime > cutoff_time] is the comparison of the time stamps. *)

From S2P Require Import Prelude FileTree FolderSize FsOps Policy Sweep.

Definition seconds_per_day : Z := 86400.

(** The body of [for item in pathlib.Path(logs_path).rglob("*"):]. *)
Definition logs_item (dry_run : bool) (cutoff_time : Z) (item : path)
    (deleted_size : Z) : CM Z :=
  try_except
    (let* st := stat item in
     if bool_decide (cutoff_time < st_mtime st) then mret deleted_size
     else if dry_run then emit (Info (MDryRun item));; mret deleted_size
     else
       let* f := is_file item in
       let* deleted_size :=
         (if f then
            let* st := stat item in
            unlink item;;
            mret (deleted_size + st_size st)
          else
            let* d := is_dir item in
            if d then
              let* size := folder_size (Some item) in
              rmtree item;;
              mret (deleted_size + size)
            else mret deleted_size) in
       emit (Info (MDeleted item));;
       mret deleted_size)
    (fun e => emit (Error (MDeleteFailed item e));; mret deleted_size).

(** The entries of one directory, listed when the selection reaches it. *)
Definition logs_children (dry_run : bool) (cutoff_time : Z) (p : path)
    (deleted_size : Z) : CM Z :=
  let* items := glob p in
  foldM (logs_item dry_run cutoff_time) items deleted_size.

(** [Path.walk] scanning [p]: the names of its subdirectories now. *)
Definition subdirs (p : path) : CM (list string) :=
  gets (fun w => match lookup_in p (fs w) with
                 | Some (Dir _ _ cs) => map node_name (filter (fun c => node_is_dir c) cs)
                 | _ => []
                 end).

(** The walk below [p], whose own entries were handled already. *)
Fixpoint visit (fuel : nat) (dry_run : bool) (cutoff_time : Z) (p : path)
    (deleted_size : Z) : CM Z :=
  match fuel with
  | O => mret deleted_size
  | S fuel' =>
      let* dirnames := subdirs p in
      let* deleted_size :=
        foldM (fun d acc => logs_children dry_run cutoff_time (p ++ [d]) acc)
              dirnames deleted_size in
      foldM (fun d acc => visit fuel' dry_run cutoff_time (p ++ [d]) acc)
            dirnames deleted_size
  end.

(** [for item in pathlib.Path(logs_path).rglob("*")]. *)
Definition rglob_loop (fuel : nat) (dry_run : bool) (cutoff_time : Z) (p : path)
    (deleted_size : Z) : CM Z :=
  let* deleted_size := logs_children dry_run cutoff_time p deleted_size in
  visit fuel dry_run cutoff_time p deleted_size.

(** The depth the walk below [p] may need. *)
Definition logs_fuel (p : path) : CM nat := gets (fun w => height_at p (fs w)).

Definition clean_old_logs (logs_path : path) (days : Z) (dry_run : bool) : CM Z :=
  emit (Info (MStart TOldLogs (Some logs_path)));;
  let* size_before := folder_size (Some logs_path) in
  let deleted_size := 0 in
  let* ex := os_path_exists (Some logs_path) in
  if negb ex then
    emit (Warning (MNotFound TOldLogs (Some logs_path)));;
    mret 0
  else
    let* now := gets clock in
    let cutoff_time := now - days * seconds_per_day in
    let* fuel := logs_fuel logs_path in
    let* deleted_size := rglob_loop fuel dry_run cutoff_time logs_path deleted_size in
    let* size_after := folder_size (Some logs_path) in
    emit (Info (MFreed TOldLogs (size_before - size_after)));;
    mret deleted_size.

(** ** Invariants of the walk

    An invariant kept by every iteration on the entries of the
    directories the walk lists is kept by the walk.  [Q] describes the
    directories the walk may list: it holds of the start and of the
    subdirectories of a directory it holds of. *)

Lemma preserves_logs_children (P : world -> Prop) dry co p acc :
  (forall x b, preserves P (logs_item dry co (p ++ [x]) b)) ->
  preserves P (logs_children dry co p acc).
Proof.
  intros Hi w Hw. unfold logs_children, bind, glob, exec. rewrite run_bind. simpl.
  apply (preserves_foldM_in P); [|exact Hw]. intros x b Hx.
  destruct (lookup_in p (fs w)) as [[| |nm t cs]|]; try by apply list_elem_of_In in Hx.
  apply list_elem_of_In, in_map_iff in Hx as (c & <- & _). apply Hi.
Qed.

Lemma preserves_visit (P : world -> Prop) (Q : path -> Prop) dry co :
  (forall p x, Q p -> Q (p ++ [x])) ->
  (forall p b, Q p -> preserves P (logs_children dry co p b)) ->
  forall fuel p acc, Q p -> preserves P (visit fuel dry co p acc).
Proof.
  intros HQ Hc fuel. induction fuel as [|fuel IH]; intros p acc Hp; simpl;
    [apply preserves_ret|].
  apply preserves_bind'; [apply preserves_gets|intros ds].
  apply preserves_bind'; [apply preserves_foldM|intros acc'; apply preserves_foldM];
    intros d b; [apply Hc|apply IH]; by apply HQ.
Qed.

(** ** Dry run *)

Lemma logs_item_dry_preserves r co item acc :
  preserves (fs_is r) (logs_item true co item acc).
Proof. unfold logs_item, is_file, is_dir, folder_size. solve_preserves. Qed.

Lemma logs_children_dry_preserves r co p acc :
  preserves (fs_is r) (logs_children true co p acc).
Proof.
  unfold logs_children, glob. solve_preserves; apply logs_item_dry_preserves.
Qed.

Lemma visit_dry_preserves r fuel co p acc :
  preserves (fs_is r) (visit fuel true co p acc).
Proof.
  revert p acc; induction fuel as [|fuel IH]; intros p acc; simpl; unfold subdirs.
  - solve_preserves.
  - solve_preserves; apply logs_children_dry_preserves.
Qed.

Lemma clean_old_logs_dry_preserves r p days :
  preserves (fs_is r) (clean_old_logs p days true).
Proof.
  unfold clean_old_logs, folder_size, os_path_exists, logs_fuel, rglob_loop.
  solve_preserves; first [apply logs_children_dry_preserves | apply visit_dry_preserves].
Qed.

(** [C7] Dry run: whatever the filesystem and the age limit, a dry run of
    [clean_old_logs] leaves the filesystem as it was. *)
Theorem clean_old_logs_dry_run p days w :
  fs (exec (clean_old_logs p days true) w) = fs w.
Proof. by apply (clean_old_logs_dry_preserves (fs w)). Qed.

Lemma visit_quiet n fuel dry co p acc :
  preserves (tg_is n) (visit fuel dry co p acc).
Proof.
  revert p acc; induction fuel as [|fuel IH]; intros p acc; simpl;
    unfold subdirs, logs_children, logs_item, glob, is_file, is_dir, folder_size;
    solve_preserves.
Qed.

Lemma clean_old_logs_quiet n p days dry :
  preserves (tg_is n) (clean_old_logs p days dry).
Proof.
  unfold clean_old_logs, folder_size, os_path_exists, logs_fuel, rglob_loop,
    logs_children, logs_item, glob, is_file, is_dir.
  solve_preserves. apply visit_quiet.
Qed.

(** ** One iteration on an entry *)

Definition logs_effect (dry_run : bool) (cutoff_time : Z) (clk : Z) (c : node) : option node :=
  match c with
  | Link _ _ => Some c
  | _ =>
      if bool_decide (cutoff_time < node_mtime c) then Some c
      else if dry_run then Some c
      else match c with
           | File _ _ _ false => None
           | Dir _ _ _ => rm_node clk c
           | _ => Some c
           end
  end.

Definition logs_bytes (dry_run : bool) (cutoff_time : Z) (c : node) : Z :=
  match c with
  | Link _ _ => 0
  | _ =>
      if bool_decide (cutoff_time < node_mtime c) then 0
      else if dry_run then 0
      else match c with
           | File _ s _ false => s
           | Dir _ _ _ => fst (walk c 0)
           | _ => 0
           end
  end.

Definition logs_events (dry_run : bool) (cutoff_time : Z) (item : path) (c : node) : list event :=
  match c with
  | Link _ _ => [Error (MDeleteFailed item (FileNotFoundError item))]
  | _ =>
      if bool_decide (cutoff_time < node_mtime c) then []
      else if dry_run then [Info (MDryRun item)]
      else match c with
           | File _ _ _ true => [Error (MDeleteFailed item (PermissionError item))]
           | _ => [Info (MDeleted item)]
           end
  end.

Lemma logs_effect_keeps_name dry co clk : keeps_name (logs_effect dry co clk).
Proof.
  intros c c'. unfold logs_effect.
  destruct c as [nm s t []|nm t|nm t cs]; try congruence;
    case_bool_decide; try congruence; destruct dry; try congruence.
  apply rm_node_keeps_name.
Qed.

(** Closes [logs_effect ... c = ...] once the age test is decided ([Hco]). *)
Local Ltac logs_fin Hco :=
  unfold logs_effect; simpl;
  first [rewrite bool_decide_true by exact Hco | rewrite bool_decide_false by exact Hco];
  reflexivity.

Lemma logs_item_spec dry co w p c acc :
  lookup_in (item_of p c) (fs w) = Some c ->
  logs_item dry co (item_of p c) acc w =
    (Ok (acc + logs_bytes dry co c),
     mk_world (alter_at (clock w) (logs_effect dry co (clock w)) (item_of p c) (fs w))
              (clock w) (trace w ++ logs_events dry co (item_of p c) c)).
Proof.
  destruct w as [root clk tr]; simpl. intros Hl.
  unfold logs_item, logs_bytes, logs_events.
  destruct c as [nm s t []|nm t|nm t cs]; [| |item_spec_tac Hl|].
  all: cbv [try_except bind stat mret M_ret mbind M_bind]; simpl; rewrite Hl; simpl.
  all: case_bool_decide as Hco; destruct dry; item_spec_tac_with Hl ltac:(logs_fin Hco).
Qed.

(** ** The whole function *)

Lemma visit_leaf fuel dry co p acc w :
  subdirs p w = (Ok [], w) -> visit fuel dry co p acc w = (Ok acc, w).
Proof.
  intros Hs. destruct fuel; [reflexivity|]. simpl.
  rewrite run_bind', Hs. reflexivity.
Qed.

(** Up to its walk: on an existing directory, the function logs, sweeps
    the snapshot of the directory's entries, walks below it, logs again
    and returns the walk's total. *)
Lemma clean_old_logs_unfold p days dry w nm t cs :
  lookup_in p (fs w) = Some (Dir nm t cs) ->
  clean_old_logs p days dry w =
    let co := clock w - days * seconds_per_day in
    let w1 := add_event (Info (MStart TOldLogs (Some p))) w in
    match foldM (logs_item dry co) (map (item_of p) cs) 0 w1 with
    | (Ok d, w2) =>
        match visit (height (Dir nm t cs)) dry co p d w2 with
        | (Ok d', w3) =>
            (Ok d', add_event (Info (MFreed TOldLogs
                     (get_folder_size (Some p) (fs w) - get_folder_size (Some p) (fs w3)))) w3)
        | (Raise e, w3) => (Raise e, w3)
        end
    | (Raise e, w2) => (Raise e, w2)
    end.
Proof.
  intros Hl. destruct w as [root clk tr]; simpl in Hl.
  cbv [clean_old_logs rglob_loop logs_children logs_fuel bind emit modify mbind M_bind
       mret M_ret gets folder_size os_path_exists glob add_event]; simpl.
  unfold height_at. repeat (rewrite Hl; simpl).
  destruct (foldM _ _ 0 _) as [[d|e] w2]; [|reflexivity].
  destruct (visit (height (Dir nm t cs)) dry (clk - days * seconds_per_day) p d w2) as [[d'|e] w3]; reflexivity.
Qed.

Lemma logs_effect_not_dir dry co clk c :
  node_is_dir c = false ->
  logs_effect dry co clk c = Some c \/ logs_effect dry co clk c = None.
Proof.
  destruct c as [nm s t []|nm t|nm t cs]; [| | |discriminate]; unfold logs_effect;
    repeat case_match; auto.
Qed.

Lemma logs_filter_flat dry co clk cs :
  Forall (fun c => node_is_dir c = false) cs ->
  filter (fun c => node_is_dir c) (rm_list (logs_effect dry co clk) cs) = [].
Proof.
  induction cs as [|c cs IH]; intros Hf; [done|].
  apply Forall_cons_1 in Hf as [Hc Hf]. simpl.
  destruct (logs_effect_not_dir dry co clk c Hc) as [-> | ->]; simpl; [|auto].
  rewrite filter_cons_False by (rewrite Hc; auto). auto.
Qed.

(** A real run on an existing directory of files and links. *)
Lemma clean_old_logs_flat_run p days w nm t cs :
  lookup_in p (fs w) = Some (Dir nm t cs) -> NoDup (map node_name cs) ->
  Forall (fun c => node_is_dir c = false) cs ->
  let r := clean_old_logs p days false w in
  let clk := clock w in
  let co := clk - days * seconds_per_day in
  let after := rm_list (logs_effect false co clk) cs in
  fst r = Ok (sumZ (logs_bytes false co) cs) /\
  lookup_in p (fs (snd r)) = Some (Dir nm (stamp t clk cs after) after) /\
  (exists freed,
     trace (snd r) =
       trace w ++ [Info (MStart TOldLogs (Some p))] ++
       concat (map (fun c => logs_events false co (item_of p c) c) cs) ++
       [Info (MFreed TOldLogs freed)]) /\
  (forall q, disjoint q p -> lookup_in q (fs (snd r)) = lookup_in q (fs w)).
Proof.
  intros Hl Hnd Hflat. rewrite (clean_old_logs_unfold p days false w nm t cs Hl).
  cbv zeta. set (co := clock w - days * seconds_per_day). set (w1 := add_event _ w).
  pose proof (sweep_children (logs_item false co) (logs_effect false co)
              (logs_bytes false co) (logs_events false co)
              (logs_effect_keeps_name false co)
              (fun w p c acc => logs_item_spec false co w p c acc)
              p nm t cs 0 w1 Hl Hnd) as Hsw.
  destruct (foldM (logs_item false co) (map (item_of p) cs) 0 w1) as [o w2].
  destruct Hsw as (Ho & Hclk & Htr & Hlp & Hfr).
  simpl in Ho, Hclk, Htr, Hlp, Hfr. subst o.
  rewrite visit_leaf; cycle 1.
  { unfold subdirs, gets. rewrite Hlp, logs_filter_flat by exact Hflat. reflexivity. }
  simpl. split; [done|]. split; [exact Hlp|]. split.
  - eexists. rewrite Htr. simpl. by rewrite <- !app_assoc.
  - exact Hfr.
Qed.

(** [C5] Real run on an existing directory of files and links, whose entries
    have distinct names: the function returns the sum of the sizes of the
    unlocked files whose time stamp is not after the cutoff ([now - days]);
    afterwards the directory holds exactly the other entries, stamped with
    the clock if it lost one; the log has, between the start and the
    summary records, the records [logs_events] gives for the entries in
    listing order: none for an entry modified after the cutoff, an error
    for a file held open or a dangling link, "deleted" for any other; and
    no path outside the directory changes. *)
Theorem clean_old_logs_flat p days w nm t cs :
  lookup_in p (fs w) = Some (Dir nm t cs) -> NoDup (map node_name cs) ->
  Forall (fun c => node_is_dir c = false) cs ->
  let r := clean_old_logs p days false w in
  let clk := clock w in
  let co := clk - days * seconds_per_day in
  let after := rm_list (logs_effect false co clk) cs in
  fst r = Ok (sumZ (logs_bytes false co) cs) /\
  lookup_in p (fs (snd r)) = Some (Dir nm (stamp t clk cs after) after) /\
  (exists freed,
     trace (snd r) =
       trace w ++ [Info (MStart TOldLogs (Some p))] ++
       concat (map (fun c => logs_events false co (item_of p c) c) cs) ++
       [Info (MFreed TOldLogs freed)]) /\
  (forall q, disjoint q p -> lookup_in q (fs (snd r)) = lookup_in q (fs w)).
Proof. apply clean_old_logs_flat_run. Qed.

(** The scenario of [test_old_logs] (src/tests.py): [old.log] was touched
    ten days ago, [new.log] now, and the age limit is 7 days. *)
Definition test_now : Z := 10000000.
Definition logs_dir : node :=
  Dir "Logs" test_now
    [File "old.log" 3 (test_now - 10 * seconds_per_day) false; File "new.log" 3 test_now false].
Definition logs_world : world := world0 (Dir "" 0 [Dir "tmp" 0 [logs_dir]]) test_now.
Definition logs_test_path : path := ["tmp"; "Logs"].

Example clean_old_logs_flat_witness :
  lookup_in logs_test_path (fs logs_world) = Some logs_dir /\
  eval (clean_old_logs logs_test_path 7 false) logs_world = Ok 3 /\
  lookup_in logs_test_path (fs (exec (clean_old_logs logs_test_path 7 false) logs_world)) =
    Some (Dir "Logs" test_now [File "new.log" 3 test_now false]).
Proof.
  split; [reflexivity|].
  assert (Hnd : NoDup (map node_name
                 (match logs_dir with Dir _ _ cs => cs | _ => [] end))).
  { apply (bool_decide_unpack _). vm_compute. exact I. }
  assert (Hfl : Forall (fun c => node_is_dir c = false)
                 (match logs_dir with Dir _ _ cs => cs | _ => [] end)).
  { repeat constructor. }
  destruct (clean_old_logs_flat logs_test_path 7 logs_world "Logs" test_now
              (match logs_dir with Dir _ _ cs => cs | _ => [] end)
              eq_refl Hnd Hfl) as (Ho & Hlp & _).
  unfold eval, exec. rewrite Ho, Hlp. vm_compute. split; reflexivity.
Defined.

(** ** Refinement of the design's policy *)

(** The design's classifier with the aged-logs rules prescribes what
    [logs_effect] does. *)
Lemma logs_effect_classify co clk c :
  is_link c = false ->
  logs_effect false co clk c = apply_decision clk (classify (aged_rules co) c) c.
Proof.
  destruct c as [nm s t []|nm t|nm t cs]; try discriminate; intros _;
    unfold logs_effect, classify; simpl; by case_bool_decide.
Qed.

(** [C14] In a real run, one iteration of the loop body with cutoff [co]
    on an entry that is not a dangling link leaves the filesystem as
    carrying out the design's classifier decision on that entry, with
    the aged-logs rules: kept when modified after the cutoff, otherwise
    the file removed unless held open, the directory's subtree removed
    by [rmtree]. *)
Theorem logs_item_refines co w p c acc :
  lookup_in (item_of p c) (fs w) = Some c -> is_link c = false ->
  fs (exec (logs_item false co (item_of p c) acc) w) =
    alter_at (clock w) (fun n => apply_decision (clock w) (classify (aged_rules co) n) n)
      (item_of p c) (fs w).
Proof.
  intros Hl Hk. unfold exec. rewrite (logs_item_spec false co w p c acc Hl). simpl.
  apply (alter_at_ext_at _ _ _ _ _ _ Hl). by apply logs_effect_classify.
Qed.

Example logs_item_refines_witness :
  lookup_in (item_of ["Logs"] (File "old.log" 3 0 false))
    (world0 (Dir "" 0 [Dir "Logs" 0 [File "old.log" 3 0 false]]) 5).(fs) =
    Some (File "old.log" 3 0 false) /\
  is_link (File "old.log" 3 0 false) = false /\
  fs (exec (logs_item false 100 (item_of ["Logs"] (File "old.log" 3 0 false)) 0)
        (world0 (Dir "" 0 [Dir "Logs" 0 [File "old.log" 3 0 false]]) 5)) =
    Dir "" 0 [Dir "Logs" 5 []].
Proof.
  split; [reflexivity|]. split; [reflexivity|].
  rewrite (logs_item_refines 100 (world0 (Dir "" 0 [Dir "Logs" 0 [File "old.log" 3 0 false]]) 5)
             ["Logs"] (File "old.log" 3 0 false) 0 eq_refl eq_refl).
  vm_compute. reflexivity.
Defined.

(** ** Fresh logs are kept *)

Section Fresh.
Context (r : node) (p : path) (co : Z).
(** Every entry below [p] that is not a dangling link was modified after
    the cutoff. *)
Hypothesis Hfresh : forall q n, q <> [] -> lookup_in (p ++ q) r = Some n ->
  is_link n = false -> co < node_mtime n.

Lemma logs_item_fresh q acc : q <> [] -> preserves (fs_is r) (logs_item false co (p ++ q) acc).
Proof.
  intros Hq w Hw. unfold fs_is in *. unfold exec, logs_item.
  rewrite run_try. unfold bind. rewrite run_bind. unfold stat at 1. rewrite Hw.
  destruct (lookup_in (p ++ q) r) as [[nm s t l|nm t|nm t cs]|] eqn:E; simpl; try exact Hw;
    (rewrite bool_decide_true; [exact Hw|exact (Hfresh q _ Hq E eq_refl)]).
Qed.

Lemma rglob_loop_fresh fuel acc : preserves (fs_is r) (rglob_loop fuel false co p acc).
Proof.
  set (Q := fun p' => exists q, p' = p ++ q).
  assert (HQ : forall p' x, Q p' -> Q (p' ++ [x])).
  { intros p' x [q ->]. exists (q ++ [x]). by rewrite app_assoc. }
  assert (Hc : forall p' b, Q p' -> preserves (fs_is r) (logs_children false co p' b)).
  { intros p' b [q ->]. apply preserves_logs_children. intros x b'.
    rewrite <- app_assoc. apply logs_item_fresh. by destruct q. }
  unfold rglob_loop. apply preserves_bind'; [apply Hc; exists []; by rewrite app_nil_r|].
  intros acc'. apply (preserves_visit _ Q); auto. exists []. by rewrite app_nil_r.
Qed.
End Fresh.

(** [C8] Only old entries go: a real run over a logs folder in which every
    entry, at every depth, was modified after the cutoff [now - days]
    leaves the filesystem exactly as it was. *)
Theorem clean_old_logs_keeps_fresh p days w :
  (forall q n, q <> [] -> lookup_in (p ++ q) (fs w) = Some n -> is_link n = false ->
     clock w - days * seconds_per_day < node_mtime n) ->
  fs (exec (clean_old_logs p days false) w) = fs w.
Proof.
  intros Hf. destruct w as [root clk tr]. simpl in *. unfold exec.
  cbv [clean_old_logs bind emit modify mbind M_bind mret M_ret gets folder_size
       os_path_exists logs_fuel add_event].
  cbn [fs clock trace]. destruct (lookup_in p root) as [[]|]; cbn [negb fs snd]; try reflexivity;
    match goal with
    | |- context [rglob_loop ?f false ?c p 0 ?w] =>
        pose proof (rglob_loop_fresh root p c Hf f 0 w eq_refl) as Hp;
        unfold exec in Hp; destruct (rglob_loop f false c p 0 w) as [[d|e] w2]
    end; exact Hp.
Qed.

(** The hypothesis of [clean_old_logs_keeps_fresh], decided on a tree. *)
Fixpoint fresh_entries (co : Z) (n : node) : bool :=
  match n with
  | Dir _ _ cs =>
      (fix go (cs : list node) : bool :=
         match cs with
         | [] => true
         | c :: r => (is_link c || bool_decide (co < node_mtime c)) && fresh_entries co c && go r
         end) cs
  | _ => true
  end.

Lemma fresh_entries_child co nm t cs x c :
  fresh_entries co (Dir nm t cs) = true -> child x cs = Some c ->
  (is_link c || bool_decide (co < node_mtime c)) = true /\ fresh_entries co c = true.
Proof.
  simpl. induction cs as [|c0 cs IH]; simpl; [discriminate|].
  intros Hf. apply andb_true_iff in Hf as [Hf Hr]. apply andb_true_iff in Hf as [Hc0 Hf0].
  destruct (decide (node_name c0 = x)); [intros [= ->]; auto|]. auto.
Qed.

Lemma fresh_entries_spec co n :
  fresh_entries co n = true ->
  forall q m, q <> [] -> lookup_in q n = Some m -> is_link m = false -> co < node_mtime m.
Proof.
  intros Hn q. revert n Hn. induction q as [|x q IH]; intros n Hn m Hq; [done|].
  destruct n as [| |nm t cs]; [done|done|]. simpl.
  destruct (child x cs) as [c|] eqn:Hc; [|discriminate].
  destruct (fresh_entries_child co nm t cs x c Hn Hc) as [Hl Hfc].
  destruct q as [|y q].
  - intros [= <-] Hlk. rewrite Hlk in Hl. simpl in Hl. by apply bool_decide_eq_true in Hl.
  - apply IH; [exact Hfc|done].
Qed.

(** Logs all written in the last week, one of them in a subfolder. *)
Definition fresh_world : world :=
  world0 (Dir "" 0 [Dir "Logs" 0
    [File "today.log" 4 test_now false;
     Dir "2024" (test_now - seconds_per_day) [File "yesterday.log" 5 (test_now - seconds_per_day) true]]])
    test_now.

Example clean_old_logs_keeps_fresh_witness :
  (forall q n, q <> [] -> lookup_in (["Logs"] ++ q) (fs fresh_world) = Some n -> is_link n = false ->
     clock fresh_world - 7 * seconds_per_day < node_mtime n) /\
  fs (exec (clean_old_logs ["Logs"] 7 false) fresh_world) = fs fresh_world.
Proof.
  assert (H : forall q n, q <> [] -> lookup_in (["Logs"] ++ q) (fs fresh_world) = Some n ->
                is_link n = false -> clock fresh_world - 7 * seconds_per_day < node_mtime n).
  { intros q n Hq Hl Hk. rewrite lookup_in_app in Hl. simpl in Hl.
    refine (fresh_entries_spec _ _ _ q n Hq Hl Hk). vm_compute. reflexivity. }
  split; [exact H|]. exact (clean_old_logs_keeps_fresh ["Logs"] 7 fresh_world H).
Defined.

(** ** Where the code departs from the design *)

(** [C16] The age test keeps only what was modified strictly after the
    cutoff: in a real run over a directory of files and links with
    distinct names, an unlocked file whose time stamp is exactly
    [now - days] is deleted and logged as deleted, whereas the design's
    boundary case says only logs strictly older than the cutoff go. *)
Theorem clean_old_logs_deletes_at_cutoff p days w nm t cs x s :
  lookup_in p (fs w) = Some (Dir nm t cs) -> NoDup (map node_name cs) ->
  Forall (fun c => node_is_dir c = false) cs ->
  child x cs = Some (File x s (clock w - days * seconds_per_day) false) ->
  let w' := exec (clean_old_logs p days false) w in
  lookup_in (p ++ [x]) (fs w') = None /\ Info (MDeleted (p ++ [x])) ∈ trace w'.
Proof.
  intros Hl Hnd Hflat Hc.
  destruct (clean_old_logs_flat_run p days w nm t cs Hl Hnd Hflat) as (_ & Hlp & (freed & Htr) & _).
  cbv zeta. unfold exec. split.
  - rewrite lookup_in_app, Hlp. simpl.
    rewrite (child_rm_list_removed _ x cs _ (logs_effect_keeps_name false _ (clock w)) Hnd Hc);
      [done|].
    unfold logs_effect. simpl. rewrite bool_decide_false by lia. done.
  - rewrite Htr. rewrite !elem_of_app. right. right. left.
    apply list_elem_of_In, in_concat. exists [Info (MDeleted (p ++ [x]))]. split; [|by left].
    apply in_map_iff. eexists. split; [|by apply (child_In x cs)].
    unfold logs_events. simpl. rewrite bool_decide_false by lia. done.
Qed.

(** A log touched exactly 7 days ago and one touched a day ago. *)
Definition edge_dir : node :=
  Dir "Logs" 0
    [File "edge.log" 5 (test_now - 7 * seconds_per_day) false;
     File "day.log" 5 (test_now - seconds_per_day) false].
Definition edge_world : world := world0 (Dir "" 0 [edge_dir]) test_now.

Example clean_old_logs_deletes_at_cutoff_witness :
  lookup_in (["Logs"] ++ ["edge.log"])
    (fs (exec (clean_old_logs ["Logs"] 7 false) edge_world)) = None.
Proof.
  assert (Hnd : NoDup (map node_name (match edge_dir with Dir _ _ cs => cs | _ => [] end))).
  { apply (bool_decide_unpack _). vm_compute. exact I. }
  exact (proj1 (clean_old_logs_deletes_at_cutoff ["Logs"] 7 edge_world "Logs" 0
           (match edge_dir with Dir _ _ cs => cs | _ => [] end) "edge.log" 5
           eq_refl Hnd ltac:(repeat constructor) eq_refl)).
Defined.

(** [C17] A directory older than the cutoff is removed with [rmtree] as a
    whole: in a real run, the iteration on a directory whose own time
    stamp is not after the cutoff and below which no file is held open
    removes the directory with everything in it, whatever the time
    stamps of the entries inside (a log written today included), and
    counts its measured size; the design classifies every entry at every
    depth by its own age. *)
Theorem logs_item_deletes_old_dir co w p nm t cs acc :
  let d := Dir nm t cs in
  t <= co -> no_open_files d = true -> lookup_in (item_of p d) (fs w) = Some d ->
  logs_item false co (item_of p d) acc w =
    (Ok (acc + get_folder_size (Some (item_of p d)) (fs w)),
     mk_world (alter_at (clock w) (fun _ => None) (item_of p d) (fs w)) (clock w)
              (trace w ++ [Info (MDeleted (item_of p d))])).
Proof.
  intros d Ht Hno Hl. rewrite (logs_item_spec false co w p d acc Hl).
  unfold logs_bytes, logs_events, get_folder_size. rewrite Hl. simpl.
  rewrite !bool_decide_false by lia. f_equal. f_equal.
  apply (alter_at_ext_at _ _ _ _ _ _ Hl). unfold logs_effect. simpl.
  rewrite bool_decide_false by lia. exact (rm_node_no_open (clock w) d Hno).
Qed.

(** An old directory holding a log written today. *)
Definition nested_dir : node :=
  Dir "2023" (test_now - 30 * seconds_per_day) [File "today.log" 4 test_now false].
Definition nested_world : world := world0 (Dir "" 0 [Dir "Logs" 0 [nested_dir]]) test_now.

Example logs_item_deletes_old_dir_witness :
  test_now - 30 * seconds_per_day <= test_now - 7 * seconds_per_day /\
  fs (exec (logs_item false (test_now - 7 * seconds_per_day) (item_of ["Logs"] nested_dir) 0)
        nested_world) = Dir "" 0 [Dir "Logs" test_now []].
Proof.
  split; [vm_compute; congruence|].
  unfold exec, nested_world, nested_dir.
  rewrite (logs_item_deletes_old_dir (test_now - 7 * seconds_per_day) _
                          ["Logs"] "2023" (test_now - 30 * seconds_per_day)
                          [File "today.log" 4 test_now false] 0);
    [vm_compute; reflexivity|vm_compute; congruence|reflexivity|reflexivity].
Defined.

(** Two nested old directories above a log held open by another process. *)
Definition double_world : world :=
  world0 (Dir "" 0 [Dir "Logs" 0
    [Dir "D" (test_now - 30 * seconds_per_day)
       [Dir "E" (test_now - 30 * seconds_per_day) [File "cbs.log" 100 test_now true]]]])
    test_now.


