(* ===== verification/LogsWalk.v ===== *)
(** * LogsWalk: the depth bound of the [rglob] walk of [clean_old_logs].

    [visit] (OldLogs.v) descends into subdirectories with a fuel, and
    [clean_old_logs] gives it the height of the logs folder ([logs_fuel]).
    This file proves that fuel enough: from a world where the node at [p]
    is at most [n] high, the walk with fuel [n] does exactly what it does
    with any larger fuel, that is, what the unbounded walk of
    [Path.rglob] does.

    The argument: every deletion the walk makes is at a path strictly
    below the directory being walked, or apart from it, and such updates
    never raise the node at a path ([FileTree.height_at_alter]); a
    subdirectory is at least one lower than its parent
    ([FileTree.height_at_snoc]). *)

From S2P Require Import Prelude FileTree FolderSize FsOps OldLogs.

(** ** Where the walk writes *)

(** [z] is strictly below [q], or apart from it. *)
Definition apart (q z : path) : Prop := (exists x r, z = q ++ x :: r) \/ disjoint q z.

(** [p] is at or below [q], or apart from it. *)
Definition below (q p : path) : Prop := (exists r, p = q ++ r) \/ disjoint q p.

Lemma below_item q p x : below q p -> apart q (p ++ [x]).
Proof.
  intros [(r & ->)|Hd]; [left|right; by apply disjoint_snoc].
  destruct r as [|y r]; [exists x, []; by rewrite app_nil_r|]. exists y, (r ++ [x]). by rewrite <- app_assoc.
Qed.

Lemma below_snoc q p x : below q p -> below q (p ++ [x]).
Proof.
  intros Hb. destruct (below_item q p x Hb) as [(y & r & ->)|Hd]; [left|by right].
  by exists (y :: r).
Qed.

Lemma below_refl q : below q q.
Proof. left. exists []. by rewrite app_nil_r. Qed.

(** Two entries of the same directory: the same path or apart. *)
Lemma below_sibling p d d' : below (p ++ [d]) (p ++ [d']).
Proof.
  destruct (decide (d = d')) as [<-|Hne]; [apply below_refl|right].
  by exists p, d, d', [], [].
Qed.

(** ** The height of the node at [q] never grows *)

Section Bound.
Context (q : path) (h : nat).

Definition hle (w : world) : Prop := (height_at q (fs w) <= h)%nat.

Lemma preserves_alter_hle f z :
  lowers f -> keeps_name f -> apart q z -> preserves hle (alter_fs f z).
Proof.
  intros Hf Hk Hz w Hw. unfold hle, exec, alter_fs, modify, set_fs. simpl.
  etransitivity; [apply height_at_alter; auto|exact Hw].
Qed.

Lemma preserves_unlink_hle z : apart q z -> preserves hle (unlink z).
Proof.
  intros Hz w Hw. unfold exec, unlink.
  destruct (lookup_in z (fs w)) as [[? ? ? []| |]|]; try exact Hw;
    apply (preserves_alter_hle _ z); auto; by intros ? ?.
Qed.

Lemma preserves_rmtree_hle z : apart q z -> preserves hle (rmtree z).
Proof.
  intros Hz w Hw. unfold exec, rmtree.
  destruct (lookup_in z (fs w)) as [[]|]; try exact Hw.
  apply (preserves_alter_hle _ z); auto using rm_node_lowers, rm_node_keeps_name.
Qed.

Lemma preserves_emit_hle e : preserves hle (emit e).
Proof. intros w Hw. exact Hw. Qed.

Lemma preserves_stat_hle z : preserves hle (stat z).
Proof. intros w Hw. unfold exec, stat. by destruct (lookup_in z (fs w)) as [[]|]. Qed.

#[local] Hint Resolve preserves_unlink_hle preserves_rmtree_hle preserves_emit_hle
  preserves_stat_hle : cleanup.

Lemma logs_item_hle dry co z acc : apart q z -> preserves hle (logs_item dry co z acc).
Proof. intros Hz. unfold logs_item, is_file, is_dir, folder_size. solve_preserves. Qed.

Lemma logs_children_hle dry co p acc : below q p -> preserves hle (logs_children dry co p acc).
Proof.
  intros Hp. apply preserves_logs_children. intros x b. by apply logs_item_hle, below_item.
Qed.

Lemma visit_hle fuel dry co p acc : below q p -> preserves hle (visit fuel dry co p acc).
Proof.
  apply (preserves_visit hle (below q)); [apply below_snoc|apply logs_children_hle].
Qed.
End Bound.

(** ** Enough fuel *)

Lemma subdirs_flat p w : height_at p (fs w) = 0%nat -> subdirs p w = (Ok [], w).
Proof.
  unfold subdirs, gets, height_at.
  by destruct (lookup_in p (fs w)) as [[| |nm t cs]|].
Qed.

(** The descents into the subdirectories of [p], with two fuels that
    agree on every subtree at most [n] high. *)
Lemma visits_fuel n m dry co p
    (IH : forall p' acc w, (height_at p' (fs w) <= n)%nat ->
          visit n dry co p' acc w = visit m dry co p' acc w) :
  forall ds acc w, (forall d, height_at (p ++ [d]) (fs w) <= n)%nat ->
  foldM (fun d acc => visit n dry co (p ++ [d]) acc) ds acc w =
  foldM (fun d acc => visit m dry co (p ++ [d]) acc) ds acc w.
Proof.
  induction ds as [|d0 ds IHds]; intros acc w Hw; simpl; [reflexivity|].
  rewrite !run_bind, IH by apply Hw.
  destruct (visit m dry co (p ++ [d0]) acc w) as [[acc'|e] w'] eqn:E; [|reflexivity].
  apply IHds. intros d. rewrite <- IH in E by apply Hw.
  pose proof (visit_hle (p ++ [d]) n n dry co (p ++ [d0]) acc (below_sibling p d d0) w (Hw d))
    as Hp.
  unfold hle, exec in Hp. by rewrite E in Hp.
Qed.

Lemma visit_fuel n : forall m dry co p acc w,
  (height_at p (fs w) <= n)%nat -> (n <= m)%nat ->
  visit n dry co p acc w = visit m dry co p acc w.
Proof.
  induction n as [|n IH]; intros m dry co p acc w Hh Hnm.
  - symmetry. apply visit_leaf, subdirs_flat. lia.
  - destruct m as [|m]; [lia|]. simpl. rewrite !run_bind'. cbn [subdirs gets].
    rewrite !run_bind'.
    destruct (foldM _ _ acc w) as [[acc1|e] w1] eqn:E; [|reflexivity].
    apply visits_fuel; [intros p' acc' w' H; apply IH; lia|].
    intros d. pose proof (height_at_snoc p d (fs w)) as Hd.
    assert (Hp : forall ds, preserves (hle (p ++ [d]) n)
                   (foldM (fun d' acc => logs_children dry co (p ++ [d']) acc) ds acc)).
    { intros ds. apply preserves_foldM. intros d' b. apply logs_children_hle, below_sibling. }
    match type of E with foldM _ ?ds _ _ = _ =>
      specialize (Hp ds w ltac:(unfold hle; lia)) end.
    unfold hle, exec in Hp. by rewrite E in Hp.
Qed.

(** [C9] The depth bound is enough: the walk [clean_old_logs] runs, with
    the height of the logs folder as its fuel ([logs_fuel]), does exactly
    what the walk with any larger fuel does: no subdirectory of any depth
    is left unvisited for lack of fuel. *)
Theorem rglob_loop_fuel_adequate m dry co p acc w :
  (height_at p (fs w) <= m)%nat ->
  rglob_loop m dry co p acc w = rglob_loop (height_at p (fs w)) dry co p acc w.
Proof.
  intros Hm. unfold rglob_loop. rewrite !run_bind'.
  destruct (logs_children dry co p acc w) as [[acc1|e] w1] eqn:E; [|reflexivity].
  pose proof (logs_children_hle p (height_at p (fs w)) dry co p acc (below_refl p) w
                ltac:(unfold hle; lia)) as Hp.
  unfold hle, exec in Hp. rewrite E in Hp. simpl in Hp.
  symmetry. apply visit_fuel; [exact Hp|exact Hm].
Qed.

Example rglob_loop_fuel_adequate_witness :
  (height_at ["Logs"] (fs double_world) <= 10)%nat /\
  rglob_loop 10 false (test_now - 7 * seconds_per_day) ["Logs"] 0 double_world =
  rglob_loop (height_at ["Logs"] (fs double_world)) false (test_now - 7 * seconds_per_day)
    ["Logs"] 0 double_world.
Proof.
  split; [vm_compute; lia|]. apply rglob_loop_fuel_adequate. vm_compute. lia.
Defined.
