(* ===== verification/Main.v ===== *)
(** * Main: [main] (src/cleanup.py, lines 168-222) and
    [send_telegram_message] (lines 24-31).

    [main] runs the four cleaners in a fixed order (browser cache; the
    folders TEMP, C:\Windows\Temp and C:\Windows\SoftwareDistribution\
    Download; C:\Windows\Logs with a 7-day limit; the recycle bin), each
    inside a [try] that logs an exception escaping the cleaner and appends
    [str(e)] to [errors]; then it builds the summary text, sends it to
    Telegram when the run is real and both the token and the chat id are
    set (warning when either is missing), and logs the total.

    The cleaners are reached through the interface [Cleaners]: [main_gen]
    is the code of [main] over any cleaners, [script_cleaners] are the
    four functions of the script, and [main] is [main_gen] at them.  The
    class [CleanersLaws] states what [main] needs of the cleaners (a dry
    run leaves the filesystem as it is; no cleaner sends a Telegram
    message); the files of the cleaners discharge it.

    The environment (the --dry-run flag, the variables LOCALAPPDATA,
    TEMP, TELEGRAM_BOT_TOKEN and TELEGRAM_CHAT_ID read by [os.getenv])
    is a [config]; whether the Bot API accepts the message is its field
    [telegram_up].  [str(e)], the interpreter's text of an exception, is
    the parameter [exn_str] of the section. *)

From S2P Require Import Prelude FileTree FolderSize FsOps SystemFolder BrowserCache RecycleBin OldLogs.
From stdpp Require Import pretty.
Open Scope Z_scope.

(** ** Formatting [f"{total_deleted / 1024 / 1024:.2f}"]

    For [|b| < 2^53] the float [b / 1024 / 1024] is exactly [b / 2^20]
    (both divisions are by powers of two), and [:.2f] rounds its exact
    value to hundredths, ties to even, keeping the sign of a negative
    value that rounds to zero. *)

(** [n / d] rounded to the nearest integer, ties to even ([0 < d]). *)
Definition round_half_even (n d : Z) : Z :=
  let q := n / d in
  match Z.compare (2 * (n mod d)) d with
  | Lt => q
  | Gt => q + 1
  | Eq => if Z.even q then q else q + 1
  end.

Definition mebibyte : Z := 2 ^ 20.

(** Hundredths of a megabyte in [|b|] bytes, rounded. *)
Definition mb_cents (b : Z) : Z := round_half_even (Z.abs b * 100) mebibyte.

Definition two_digits (n : Z) : string :=
  (if bool_decide (n < 10) then "0" else "") +:+ pretty (Z.to_N n).

Definition format_mb (b : Z) : string :=
  (if bool_decide (b < 0) then "-" else "") +:+
  pretty (Z.to_N (mb_cents b / 100)) +:+ "." +:+ two_digits (mb_cents b mod 100).

(** [sep.join(l)]. *)
Fixpoint join (sep : string) (l : list string) : string :=
  match l with
  | [] => ""
  | [x] => x
  | x :: r => x +:+ sep +:+ join sep r
  end.

Definition newline : string := String (Ascii.ascii_of_nat 10) EmptyString.

(** ** The configuration *)

Record config : Type := mk_config {
  args_dry_run : bool;             (** [--dry-run] *)
  env_localappdata : option path;  (** [os.getenv("LOCALAPPDATA")] *)
  env_temp : option path;          (** [os.getenv("TEMP")] *)
  env_token : option string;       (** [os.getenv('TELEGRAM_BOT_TOKEN')] *)
  env_chat_id : option string;     (** [os.getenv('TELEGRAM_CHAT_ID')] *)
  telegram_up : bool;              (** the Bot API accepts the message *)
}.

Definition windows_temp : path := ["C:"; "Windows"; "Temp"].
Definition software_download : path := ["C:"; "Windows"; "SoftwareDistribution"; "Download"].
Definition windows_logs : path := ["C:"; "Windows"; "Logs"].

(** [folders = [os.getenv("TEMP"), r"C:\Windows\Temp", ...]]. *)
Definition folders (cfg : config) : list (option path) :=
  [env_temp cfg; Some windows_temp; Some software_download].

(** The truth value of an optional string: [None] and [""] are false. *)
Definition truthy (s : option string) : bool :=
  match s with Some x => negb (bool_decide (x = "")) | None => false end.

(** ** The Telegram notification *)

(** [await bot.send_message(chat_id=chat_id, text=message)]. *)
Definition bot_send (up : bool) (token chat_id text : string) : CM unit :=
  if up then emit (Telegram token chat_id text) else raise NetworkError.

Definition send_telegram_message (up : bool) (token chat_id message : string) : CM unit :=
  try_except
    (bot_send up token chat_id message;;
     emit (Info MNotifySent))
    (fun e => emit (Error (MNotifyFailed e))).

(** What the [if]/[elif] at the end of [main] does. *)
Inductive notify : Type := NSend (token chat_id : string) | NWarn | NSilent.

Definition notify_decision (dry_run : bool) (token chat_id : option string) : notify :=
  if negb dry_run && truthy token && truthy chat_id then
    match token, chat_id with Some t, Some c => NSend t c | _, _ => NSilent end
  else if negb (truthy token) || negb (truthy chat_id) then NWarn
  else NSilent.

(** ** The cleaners [main] calls *)

Class Cleaners : Type := {
  cl_browser : bool -> option path -> CM Z;      (** dry run, LOCALAPPDATA *)
  cl_system : option path -> bool -> CM Z;
  cl_logs : path -> Z -> bool -> CM Z;
  cl_bin : bool -> CM Z;
}.

#[export] Instance script_cleaners : Cleaners := {|
  cl_browser dry la := clean_yandex_browser_cache dry None la;
  cl_system := clean_system_folder;
  cl_logs := clean_old_logs;
  cl_bin := clean_recycle_bin;
|}.

(** What [main] relies on. *)
Class CleanersLaws `{Cleaners} : Prop := {
  browser_dry r la : preserves (fs_is r) (cl_browser true la);
  system_dry r p : preserves (fs_is r) (cl_system p true);
  logs_dry r p days : preserves (fs_is r) (cl_logs p days true);
  bin_dry r : preserves (fs_is r) (cl_bin true);
  browser_quiet n dry la : preserves (tg_is n) (cl_browser dry la);
  system_quiet n p dry : preserves (tg_is n) (cl_system p dry);
  logs_quiet n p days dry : preserves (tg_is n) (cl_logs p days dry);
  bin_quiet n dry : preserves (tg_is n) (cl_bin dry);
}.

#[export] Instance script_cleaners_laws : CleanersLaws.
Proof.
  split; intros; simpl.
  - apply clean_yandex_dry_preserves.
  - apply clean_system_folder_dry_preserves.
  - apply clean_old_logs_dry_preserves.
  - apply clean_recycle_bin_dry_preserves.
  - apply clean_yandex_quiet.
  - apply clean_system_folder_quiet.
  - apply clean_old_logs_quiet.
  - apply clean_recycle_bin_quiet.
Qed.

(** ** [main] *)

Section Main.
Context (exn_str : exn -> string).

(** [message = f"Очистка завершена. Освобождено: {...:.2f} MB."] and
    [message += f"\nОшибки: {', '.join(errors)}"] when [errors]. *)
Definition summary_message (total_deleted : Z) (errors : list string) : string :=
  "Очистка завершена. Освобождено: " +:+ format_mb total_deleted +:+ " MB." +:+
  (if bool_decide (errors = []) then ""
   else newline +:+ "Ошибки: " +:+ join ", " errors).

(** [try: total_deleted += c except Exception as e: logger.error(...);
    errors.append(str(e))]. *)
Definition run_target (t : target) (c : CM Z) (acc : Z * list string) : CM (Z * list string) :=
  try_except
    (let* d := c in mret (acc.1 + d, acc.2))
    (fun e => emit (Error (MTargetFailed t e));; mret (acc.1, acc.2 ++ [exn_str e])).

Definition notify_run (cfg : config) (message : string) : CM unit :=
  match notify_decision (args_dry_run cfg) (env_token cfg) (env_chat_id cfg) with
  | NSend t c => send_telegram_message (telegram_up cfg) t c message
  | NWarn => emit (Warning MNoCredentials)
  | NSilent => mret tt
  end.

(** The four [try] blocks, in the order of [main]. *)
Definition run_targets `{Cleaners} (cfg : config) : CM (Z * list string) :=
  let dry := args_dry_run cfg in
  let* acc := run_target TBrowserCache (cl_browser dry (env_localappdata cfg)) (0, []) in
  let* acc := foldM (fun folder acc => run_target (TSystemFolder folder) (cl_system folder dry) acc)
                    (folders cfg) acc in
  let* acc := run_target TOldLogs (cl_logs windows_logs 7 dry) acc in
  run_target TRecycleBin (cl_bin dry) acc.

Definition main_gen `{Cleaners} (cfg : config) : CM unit :=
  emit (Info MRunStart);;
  let* acc := run_targets cfg in
  notify_run cfg (summary_message acc.1 acc.2);;
  emit (Info (MRunDone acc.1)).

Definition main (cfg : config) : CM unit := main_gen cfg.
End Main.

(** ** What the [try] blocks of [main] add up to

    A reference for [run_targets]: the six cleaner calls of [main] in
    order, each run on the world the previous one left, an exception
    logged and dropped; the total is the sum of the values returned and
    [errors] the texts of the exceptions, in order. *)

Definition attempts `{Cleaners} (cfg : config) : list (target * CM Z) :=
  let dry := args_dry_run cfg in
  [(TBrowserCache, cl_browser dry (env_localappdata cfg))] ++
  map (fun folder => (TSystemFolder folder, cl_system folder dry)) (folders cfg) ++
  [(TOldLogs, cl_logs windows_logs 7 dry)] ++ [(TRecycleBin, cl_bin dry)].

Fixpoint run_all (ts : list (target * CM Z)) (w : world) : list (outcome exn Z) * world :=
  match ts with
  | [] => ([], w)
  | (t, c) :: ts' =>
      let '(o, w1) := c w in
      let w2 := match o with Ok _ => w1 | Raise e => add_event (Error (MTargetFailed t e)) w1 end in
      let '(os, w3) := run_all ts' w2 in (o :: os, w3)
  end.

Definition ok_value (o : outcome exn Z) : Z := match o with Ok d => d | Raise _ => 0 end.

Definition summarize (exn_str : exn -> string) (os : list (outcome exn Z)) : Z * list string :=
  (sumZ ok_value os,
   omap (fun o => match o with Ok _ => None | Raise e => Some (exn_str e) end) os).

(** ** Laws of [main]'s parts *)

#[local] Hint Unfold emit : cleanup.

Section MainLaws.
Context (exn_str : exn -> string).

Lemma no_raise_emit e : no_raise (emit e).
Proof. apply no_raise_modify. Qed.

Lemma run_target_no_raise t c acc : no_raise (run_target exn_str t c acc).
Proof. unfold run_target, emit. solve_no_raise. Qed.

Lemma notify_run_no_raise cfg m : no_raise (notify_run cfg m).
Proof.
  unfold notify_run, send_telegram_message, emit. solve_no_raise.
Qed.

Lemma run_targets_no_raise `{Cleaners} cfg : no_raise (run_targets exn_str cfg).
Proof. unfold run_targets. solve_no_raise; apply run_target_no_raise. Qed.

Section Laws.
Context `{CleanersLaws}.

Lemma run_targets_dry r cfg :
  args_dry_run cfg = true -> preserves (fs_is r) (run_targets exn_str cfg).
Proof.
  intros Hd. unfold run_targets, run_target. rewrite Hd.
  solve_preserves; first [apply browser_dry | apply system_dry | apply logs_dry | apply bin_dry].
Qed.

Lemma run_targets_quiet n cfg : preserves (tg_is n) (run_targets exn_str cfg).
Proof.
  unfold run_targets, run_target.
  solve_preserves;
    first [apply browser_quiet | apply system_quiet | apply logs_quiet | apply bin_quiet].
Qed.
End Laws.

Lemma run_all_app ts1 ts2 w :
  run_all (ts1 ++ ts2) w =
    let r1 := run_all ts1 w in let r2 := run_all ts2 r1.2 in (r1.1 ++ r2.1, r2.2).
Proof.
  revert w. induction ts1 as [|[t c] ts1 IH]; intros w; simpl; [by destruct (run_all ts2 w)|].
  destruct (c w) as [o w1]. rewrite IH. simpl.
  by destruct (run_all ts1 _) as [os1 w3], (run_all ts2 w3).
Qed.

Lemma summarize_app os1 os2 :
  summarize exn_str (os1 ++ os2) =
    ((summarize exn_str os1).1 + (summarize exn_str os2).1,
     (summarize exn_str os1).2 ++ (summarize exn_str os2).2).
Proof. unfold summarize. by rewrite sumZ_app, omap_app. Qed.

(** One [try] block is [run_all] of one call. *)
Lemma run_target_run t c acc w :
  run_target exn_str t c acc w =
    let r := run_all [(t, c)] w in
    (Ok (acc.1 + (summarize exn_str r.1).1, acc.2 ++ (summarize exn_str r.1).2), r.2).
Proof.
  cbv [run_target try_except bind mbind M_bind mret M_ret emit modify]. simpl.
  by destruct (c w) as [[d|e] w1]; simpl; rewrite ?Z.add_0_r, ?app_nil_r.
Qed.

Lemma foldM_run_target {X} (tg : X -> target) (cm : X -> CM Z) l acc w :
  foldM (fun x acc => run_target exn_str (tg x) (cm x) acc) l acc w =
    let r := run_all (map (fun x => (tg x, cm x)) l) w in
    (Ok (acc.1 + (summarize exn_str r.1).1, acc.2 ++ (summarize exn_str r.1).2), r.2).
Proof.
  revert acc w. induction l as [|x l IH]; intros acc w; simpl.
  - by rewrite Z.add_0_r, app_nil_r, <- surjective_pairing.
  - rewrite run_bind, run_target_run. cbv beta iota zeta. rewrite IH. simpl.
    destruct (cm x w) as [[d|e] w1]; simpl; destruct (run_all _ _) as [os w3]; simpl;
      rewrite ?app_nil_r, <- ?app_assoc; do 3 f_equal; lia.
Qed.

Lemma run_targets_run `{Cleaners} cfg w :
  run_targets exn_str cfg w =
    let r := run_all (attempts cfg) w in (Ok (summarize exn_str r.1), r.2).
Proof.
  unfold attempts. repeat (rewrite run_all_app; cbv zeta).
  unfold run_targets. rewrite run_bind', run_target_run. cbv beta iota zeta.
  rewrite run_bind', foldM_run_target. cbv beta iota zeta.
  rewrite run_bind', run_target_run. cbv beta iota zeta. rewrite run_target_run.
  repeat match goal with |- context [run_all ?l ?v] => is_var v;
    let o := fresh "o" in let v' := fresh "w" in destruct (run_all l v) as [o v']; cbn [fst snd]
  end.
  rewrite !summarize_app. cbn [fst snd]. rewrite <- !app_assoc. do 3 f_equal. lia.
Qed.

(** The Telegram messages [notify_run] sends. *)
Definition sent (cfg : config) (m : string) : list event :=
  match notify_decision (args_dry_run cfg) (env_token cfg) (env_chat_id cfg) with
  | NSend t c => if telegram_up cfg then [Telegram t c m] else []
  | _ => []
  end.

Lemma notify_run_sent cfg m w :
  List.filter is_telegram (trace (exec (notify_run cfg m) w)) =
    List.filter is_telegram (trace w) ++ sent cfg m.
Proof.
  unfold notify_run, sent, exec, send_telegram_message, bot_send.
  destruct (notify_decision _ _ _); [destruct (telegram_up cfg)|..]; simpl;
    rewrite ?List.filter_app; simpl; by rewrite ?app_nil_r, <- ?app_assoc.
Qed.

Lemma sent_dry cfg m : args_dry_run cfg = true -> sent cfg m = [].
Proof. intros Hd. unfold sent, notify_decision. rewrite Hd. simpl. by destruct (_ || _). Qed.
Lemma notify_run_dry r cfg m :
  args_dry_run cfg = true -> preserves (fs_is r) (notify_run cfg m).
Proof.
  intros Hd. unfold notify_run, send_telegram_message, bot_send. solve_preserves.
Qed.

Lemma main_gen_no_raise `{Cleaners} cfg : no_raise (main_gen exn_str cfg).
Proof.
  unfold main_gen. apply no_raise_bind; [apply no_raise_modify|intros _].
  apply no_raise_bind'; [apply run_targets_no_raise|intros acc].
  apply no_raise_bind; [apply notify_run_no_raise|intros _]. apply no_raise_modify.
Qed.

Lemma main_gen_dry `{CleanersLaws} r cfg :
  args_dry_run cfg = true -> preserves (fs_is r) (main_gen exn_str cfg).
Proof.
  intros Hd. unfold main_gen. apply preserves_bind; [apply preserves_emit|intros _].
  apply preserves_bind'; [by apply run_targets_dry|intros acc].
  apply preserves_bind; [by apply notify_run_dry|intros _]. apply preserves_emit.
Qed.

(** The Telegram messages of a run of [main_gen]: those sent before, then
    what [notify_run] sends of the summary of the run. *)
Lemma main_gen_sent `{CleanersLaws} cfg w :
  exists total errors,
    eval (run_targets exn_str cfg) (add_event (Info MRunStart) w) = Ok (total, errors) /\
    List.filter is_telegram (trace (exec (main_gen exn_str cfg) w)) =
      List.filter is_telegram (trace w) ++ sent cfg (summary_message total errors).
Proof.
  set (n := List.filter is_telegram (trace w)).
  set (w1 := add_event (Info MRunStart) w).
  assert (Hw1 : tg_is n w1) by exact (preserves_info n MRunStart w eq_refl).
  destruct (run_no_raise (tg_is n) (run_targets exn_str cfg) w1
              (run_targets_no_raise cfg) (run_targets_quiet n cfg) Hw1)
    as ([total errors] & w2 & Hrun & Hw2).
  exists total, errors. split; [by unfold eval; rewrite Hrun|]. unfold exec, main_gen. rewrite run_bind.
  change (emit (Info MRunStart) w) with (@Ok exn unit tt, w1). cbv beta iota.
  rewrite run_bind', Hrun.
  rewrite run_bind. simpl.
  pose proof (notify_run_sent cfg (summary_message total errors) w2) as Hs.
  unfold exec in Hs. rewrite Hw2 in Hs.
  destruct (notify_run_no_raise cfg (summary_message total errors) w2) as [u Hu].
  destruct (notify_run cfg _ w2) as [o w3]. simpl in Hu, Hs. subst o.
  apply (preserves_info _ _ w3 Hs).
Qed.
End MainLaws.

(** [c] is [n / 2^20] rounded to the nearest integer, ties to even. *)
Definition nearest_even (n c : Z) : Prop :=
  2 * Z.abs (c * mebibyte - n) < mebibyte \/
  (2 * Z.abs (c * mebibyte - n) = mebibyte /\ Z.even c = true).

Lemma nearest_even_unique n c c' : nearest_even n c -> nearest_even n c' -> c = c'.
Proof.
  unfold nearest_even, mebibyte. change (2 ^ 20) with 1048576.
  intros [H|[H He]] [H'|[H' He']]; try lia.
  apply Z.even_spec in He as [k ->]. apply Z.even_spec in He' as [k' ->]. lia.
Qed.

Lemma round_half_even_nearest n : nearest_even n (round_half_even n mebibyte).
Proof.
  unfold nearest_even, round_half_even, mebibyte. change (2 ^ 20) with 1048576.
  pose proof (Z.div_mod n 1048576 ltac:(lia)). pose proof (Z.mod_pos_bound n 1048576 ltac:(lia)).
  destruct (Z.compare_spec (2 * (n mod 1048576)) 1048576);
    [destruct (Z.even (n / 1048576)) eqn:E|..]; try (left; lia); right; split; try lia.
  - exact E.
  - change (n / 1048576 + 1) with (Z.succ (n / 1048576)).
    by rewrite Z.even_succ, <- Z.negb_even, E.
Qed.

(** [C27] Rounding: the hundredths of a megabyte [main] prints for a total
    of [b] bytes ([mb_cents], printed by [format_mb] after the sign) are
    exactly the integer [c] nearest to [|b| * 100 / 2^20], the even one of
    the two when [|b| * 100 / 2^20] lies half-way between two integers,
    as [:.2f] rounds. *)
Theorem mb_cents_spec b c :
  mb_cents b = c <->
  2 * Z.abs (c * mebibyte - Z.abs b * 100) < mebibyte \/
  (2 * Z.abs (c * mebibyte - Z.abs b * 100) = mebibyte /\ Z.even c = true).
Proof.
  unfold mb_cents. split; [intros <-; apply round_half_even_nearest|intros Hc].
  apply (nearest_even_unique (Z.abs b * 100)); [apply round_half_even_nearest|exact Hc].
Qed.

(** [C11] The decision to notify: a message is sent exactly when the run is
    real and both the token and the chat id are set and not empty; the
    missing-credentials warning is logged exactly when one of them is
    unset or empty, dry run or not. *)
Theorem notify_decision_spec dry tok chat t c :
  (notify_decision dry tok chat = NSend t c <->
     dry = false /\ tok = Some t /\ chat = Some c /\ t <> "" /\ c <> "") /\
  (notify_decision dry tok chat = NWarn <-> truthy tok = false \/ truthy chat = false).
Proof.
  unfold notify_decision, truthy.
  destruct dry, tok as [t'|], chat as [c'|]; simpl;
    repeat case_bool_decide; simpl; naive_solver.
Qed.

(** [C6] Error isolation: whatever the configuration and the world, [main]
    runs to its end; no exception of a cleaner or of the notification
    escapes it. *)
Theorem main_never_raises exn_str cfg w : eval (main exn_str cfg) w = Ok tt.
Proof.
  destruct (main_gen_no_raise exn_str cfg w) as [[] Ho]. exact Ho.
Qed.

(** [C2] Dry run: with [--dry-run], [main] leaves the filesystem as it was
    and sends no Telegram message, whatever the environment. *)
Theorem main_dry_run exn_str cfg w :
  args_dry_run cfg = true ->
  fs (exec (main exn_str cfg) w) = fs w /\
  List.filter is_telegram (trace (exec (main exn_str cfg) w)) =
    List.filter is_telegram (trace w).
Proof.
  intros Hd. split.
  - by apply (main_gen_dry exn_str (fs w) cfg Hd).
  - destruct (main_gen_sent exn_str cfg w) as (total & errors & _ & Hs).
    unfold main. rewrite Hs, sent_dry by exact Hd. apply app_nil_r.
Qed.

(** [C10] Notification: a run of [main] sends at most one Telegram message,
    the summary of the run: the sum of the values the six cleaner calls
    returned and the texts of the exceptions that escaped them, each call
    run on the world the previous one left ([run_all], [summarize]); it
    sends it when [notify_decision] says so and the Bot API accepts it,
    and sends nothing otherwise. *)
Theorem main_notifies exn_str cfg w :
  let s := summarize exn_str (run_all (attempts cfg) (add_event (Info MRunStart) w)).1 in
  List.filter is_telegram (trace (exec (main exn_str cfg) w)) =
    List.filter is_telegram (trace w) ++
    match notify_decision (args_dry_run cfg) (env_token cfg) (env_chat_id cfg) with
    | NSend t c => if telegram_up cfg then [Telegram t c (summary_message s.1 s.2)] else []
    | _ => []
    end.
Proof.
  destruct (main_gen_sent exn_str cfg w) as (total & errors & Hev & Hs).
  unfold eval in Hev. rewrite run_targets_run in Hev. cbv zeta in *. cbn [fst] in Hev.
  unfold main. rewrite Hs. destruct (summarize _ _) as [t e]. by injection Hev as -> ->.
Qed.

(** [C18] The four [try] blocks of [main] ([run_targets]) run the six
    cleaner calls in order, each on the world the previous one left, an
    exception being logged under its target and dropped, and return the
    sum of the values the calls returned with the texts of the exceptions,
    in order; for any cleaners, not only the script's. *)
Theorem run_targets_summarizes `{Cleaners} exn_str cfg w :
  eval (run_targets exn_str cfg) w = Ok (summarize exn_str (run_all (attempts cfg) w).1) /\
  exec (run_targets exn_str cfg) w = (run_all (attempts cfg) w).2.
Proof. unfold eval, exec. by rewrite run_targets_run. Qed.

(** A machine where neither LOCALAPPDATA nor TEMP is set, C:\Windows\Temp
    holds 1.125 MB in two files, and the other folders are missing. *)
Definition sample_world : world :=
  world0 (Dir "" 0 [Dir "C:" 0 [Dir "Windows" 0 [Dir "Temp" 0
    [File "x.tmp" 1048576 0 false; File "y.tmp" 131072 0 false]]]]) 1000.
Definition sample_cfg (dry : bool) : config := mk_config dry None None (Some "tok") (Some "42") true.

Example main_dry_run_witness :
  args_dry_run (sample_cfg true) = true /\
  fs (exec (main (fun _ => "error") (sample_cfg true)) sample_world) = fs sample_world.
Proof.
  split; [reflexivity|].
  exact (proj1 (main_dry_run (fun _ => "error") (sample_cfg true) sample_world eq_refl)).
Defined.
